(** * Relay control web server (Waveshare RP2350-POE-ETH-8DI-8RO)

    A shallow embedding of [web_server/main.c] and [web_server/config.h]:
    the relay store [g_relay_states], [relay_init], [set_relay],
    [get_relays_json], [send_http_response] and the request router
    [process_http_request], with the C library routines they call
    ([sscanf "%s %s"], [strcmp], [strncmp], [strstr], [snprintf]) written
    out over character strings. *)

From Stdlib Require Import ZArith Ascii DecimalString DecimalFacts Lia.
From Stdlib Require String.
From stdpp Require Import base list gmap strings.

Local Open Scope Z_scope.

(** String concatenation is unfolded by [simpl] on a literal prefix. *)
#[local] Arguments String.append !_ _ / : simpl nomatch.

(** ** C strings *)

Module CStr.

(** A [char *] points at characters followed by a terminator: of the
    memory behind the pointer the string routines see the characters
    before the first NUL. *)
Fixpoint c_str (mem : string) : string :=
  match mem with
  | EmptyString => EmptyString
  | String c rest =>
      if Ascii.eqb c "000"%char then EmptyString else String c (c_str rest)
  end.

(** The value of a character as an [int], [char] being unsigned as on the
    cores of the RP2350. The router uses it in one difference that is
    converted to [uint8_t], which comes out the same with a signed
    [char]. *)
Definition code (c : ascii) : Z := Z.of_N (N_of_ascii c).

(** [s[i]] for a terminated string held in a zero-initialised buffer:
    the terminator, and everything behind it, reads as 0. *)
Definition char_at (s : string) (i : nat) : Z :=
  match String.get i s with
  | Some c => code c
  | None => 0
  end.

(** [isspace] in the C locale: space, \t, \n, \v, \f, \r. *)
Definition isspace (c : ascii) : bool :=
  let n := code c in (n =? 32) || ((9 <=? n) && (n <=? 13)).

(** [strcmp]: the difference of the first pair of characters that differ,
    the terminator counting as 0. *)
Fixpoint strcmp (s1 s2 : string) : Z :=
  match s1, s2 with
  | EmptyString, EmptyString => 0
  | EmptyString, String c2 _ => 0 - code c2
  | String c1 _, EmptyString => code c1
  | String c1 r1, String c2 r2 =>
      if code c1 =? code c2 then strcmp r1 r2 else code c1 - code c2
  end.

(** [strncmp]: as [strcmp], over at most [n] characters. *)
Fixpoint strncmp (s1 s2 : string) (n : nat) {struct n} : Z :=
  match n with
  | O => 0
  | S n' =>
      match s1, s2 with
      | EmptyString, EmptyString => 0
      | EmptyString, String c2 _ => 0 - code c2
      | String c1 _, EmptyString => code c1
      | String c1 r1, String c2 r2 =>
          if code c1 =? code c2 then strncmp r1 r2 n'
          else code c1 - code c2
      end
  end.

(** Does [s] start with [p]? *)
Fixpoint starts_with (p s : string) : bool :=
  match p, s with
  | EmptyString, _ => true
  | String _ _, EmptyString => false
  | String a p', String b s' => Ascii.eqb a b && starts_with p' s'
  end.

(** [strstr]: the tail of [h] from the first occurrence of [n] on, or
    NULL ([None]) when there is none. *)
Fixpoint strstr (h n : string) : option string :=
  if starts_with n h then Some h
  else match h with
       | EmptyString => None
       | String _ t => strstr t n
       end.

(** Pointer arithmetic [p += k] inside a string. *)
Fixpoint advance (k : nat) (s : string) : string :=
  match k, s with
  | O, _ => s
  | S _, EmptyString => EmptyString
  | S k', String _ t => advance k' t
  end.

(** [%d] of an [int]. *)
Definition fmt_d (z : Z) : string := NilZero.string_of_int (Z.to_int z).

(** [snprintf(buf, size, ...)] stores at most [size - 1] characters of the
    formatted text [full]. *)
Definition snprintf (size : nat) (full : string) : string :=
  String.substring 0 (size - 1) full.

(** [%s] of [sscanf]: white space is skipped, then the longest run of
    characters that are not white space is the token. *)
Fixpoint skip_space (s : string) : string :=
  match s with
  | EmptyString => EmptyString
  | String c rest => if isspace c then skip_space rest else s
  end.

Fixpoint scan_token (s : string) : string * string :=
  match s with
  | EmptyString => (EmptyString, EmptyString)
  | String c rest =>
      if isspace c then (EmptyString, s)
      else let '(tok, rem) := scan_token rest in (String c tok, rem)
  end.

(** [sscanf(input, "%s %s", a, b)] for zero-initialised buffers [a] of
    [size_a] and [b] of [size_b] characters. A conversion that finds no
    token leaves its buffer (and the later ones) as it was, that is
    empty. No field width is given, so a token is stored whole with its
    terminator: one that does not fit writes past the end of the buffer,
    and the behaviour of the program is undefined ([None]). *)
Definition sscanf_s_s (input : string) (size_a size_b : nat)
  : option (string * string) :=
  let in1 := skip_space input in
  match in1 with
  | EmptyString => Some (EmptyString, EmptyString)
  | String _ _ =>
      let '(a, rem) := scan_token in1 in
      if (size_a <=? String.length a)%nat then None
      else
        let in2 := skip_space rem in
        match in2 with
        | EmptyString => Some (a, EmptyString)
        | String _ _ =>
            let '(b, _) := scan_token in2 in
            if (size_b <=? String.length b)%nat then None
            else Some (a, b)
        end
  end.

(** The text [pat] occurs in [s]. *)
Definition occurs (pat s : string) : Prop :=
  exists pre post, s = pre +:+ pat +:+ post.

End CStr.
Import CStr.

(** ** config.h *)

Definition HTTP_SOCKET : Z := 0.
Definition HTTP_PORT : Z := 80.
Definition MAX_HTTP_BUF : Z := 2048.

Definition RELAY_CH1 : Z := 17.
Definition RELAY_CH2 : Z := 18.
Definition RELAY_CH3 : Z := 19.
Definition RELAY_CH4 : Z := 20.
Definition RELAY_CH5 : Z := 21.
Definition RELAY_CH6 : Z := 22.
Definition RELAY_CH7 : Z := 23.
Definition RELAY_CH8 : Z := 24.

Definition RELAY_COUNT : Z := 8.

(** ** main.c: the relay store and the GPIO driver *)

(** What the program owns: the array [uint8_t g_relay_states[RELAY_COUNT]]
    and, behind the GPIO driver, the level last driven on each output pin
    ([gpio_put]). Console output ([printf]) is not modelled. *)
Record board : Type := Board {
  g_relay_states : list Z;
  gpio_out : gmap Z bool
}.

(** Conversion of an [int] to [uint8_t]. *)
Definition uint8 (z : Z) : Z := z mod 256.

(** [const uint8_t relay_pins[]] of [relay_init] and [set_relay]. *)
Definition relay_pins : list Z :=
  [RELAY_CH1; RELAY_CH2; RELAY_CH3; RELAY_CH4;
   RELAY_CH5; RELAY_CH6; RELAY_CH7; RELAY_CH8].

(** [uint8_t g_relay_states[RELAY_COUNT] = {0};] before [main] runs; no pin
    has been driven yet. *)
Definition power_on : board :=
  Board (replicate (Z.to_nat RELAY_COUNT) 0) ∅.

(** One turn of the loop of [relay_init], at index [i]: [gpio_init],
    [gpio_set_dir(.., GPIO_OUT)] and [gpio_put(.., 0)] leave the pin an
    output at level 0, then [g_relay_states[i] = 0]. *)
Definition relay_init_step (st : board) (i : nat) : board :=
  Board (<[i := 0]> (g_relay_states st))
        (<[relay_pins !!! i := false]> (gpio_out st)).

(** [for (int i = 0; i < RELAY_COUNT; i++) ...] *)
Definition relay_init (st : board) : board :=
  foldl relay_init_step st (seq 0 (Z.to_nat RELAY_COUNT)).

(** [set_relay(relay_num, state)], both arguments already [uint8_t]. *)
Definition set_relay (relay_num state : Z) (st : board) : board :=
  if (1 <=? relay_num) && (relay_num <=? RELAY_COUNT) then
    let i := Z.to_nat (relay_num - 1) in
    Board (<[i := if state =? 0 then 0 else 1]> (g_relay_states st))
          (<[relay_pins !!! i := negb (state =? 0)]> (gpio_out st))
  else st.

(** ** main.c: responses *)

(** Carriage return with line feed, and the double quote, which the C
    literals write with a backslash. *)
Definition CRLF : string := String "013" (String "010" EmptyString).
Definition DQ : string := String "034" EmptyString.
Definition quoted (s : string) : string := DQ +:+ s +:+ DQ.

(** [get_relays_json(buffer, bufsize)]: the text left in [buffer]. *)
Definition get_relays_json (st : board) (bufsize : nat) : string :=
  let g := g_relay_states st in
  snprintf bufsize
    ("{" +:+ quoted "relay_1" +:+ ":{" +:+ quoted "state" +:+ ":"
         +:+ fmt_d (g !!! 0%nat) +:+ "},"
         +:+ quoted "relay_2" +:+ ":{" +:+ quoted "state" +:+ ":"
         +:+ fmt_d (g !!! 1%nat) +:+ "},"
         +:+ quoted "relay_3" +:+ ":{" +:+ quoted "state" +:+ ":"
         +:+ fmt_d (g !!! 2%nat) +:+ "},"
         +:+ quoted "relay_4" +:+ ":{" +:+ quoted "state" +:+ ":"
         +:+ fmt_d (g !!! 3%nat) +:+ "},"
         +:+ quoted "relay_5" +:+ ":{" +:+ quoted "state" +:+ ":"
         +:+ fmt_d (g !!! 4%nat) +:+ "},"
         +:+ quoted "relay_6" +:+ ":{" +:+ quoted "state" +:+ ":"
         +:+ fmt_d (g !!! 5%nat) +:+ "},"
         +:+ quoted "relay_7" +:+ ":{" +:+ quoted "state" +:+ ":"
         +:+ fmt_d (g !!! 6%nat) +:+ "},"
         +:+ quoted "relay_8" +:+ ":{" +:+ quoted "state" +:+ ":"
         +:+ fmt_d (g !!! 7%nat) +:+ "}}").

(** A call of [send] of the socket library, with the bytes it is given to
    transmit. *)
Inductive io : Type :=
| Send (sock : Z) (data : string).

(** Conversion to [uint16_t], the type of the length [send] takes. *)
Definition uint16 (z : Z) : Z := z mod 65536.

(** [strlen(buf)]: the characters before the terminator. *)
Definition strlen (buf : string) : Z := Z.of_nat (String.length (c_str buf)).

(** [send(sock, buf, len)]: the length arrives as [uint16_t], and that many
    bytes at [buf] are handed over. *)
Definition send (sock : Z) (buf : string) (len : Z) : io :=
  Send sock (String.substring 0 (Z.to_nat (uint16 len)) buf).

(** The header text of [send_http_response], as left in [char header[256]];
    [%s] prints a string up to its terminator. *)
Definition http_header (status content_type body : string) : string :=
  snprintf 256
    ("HTTP/1.1 " +:+ c_str status +:+ CRLF
       +:+ "Content-Type: " +:+ c_str content_type +:+ CRLF
       +:+ "Content-Length: " +:+ fmt_d (strlen body) +:+ CRLF
       +:+ "Connection: close" +:+ CRLF +:+ CRLF).

(** [send_http_response]: the header is sent, then the body, each with its
    [strlen] as length. *)
Definition send_http_response (sock : Z) (status content_type body : string)
  : list io :=
  let header := http_header status content_type body in
  [send sock header (strlen header); send sock body (strlen body)].

(** ** main.c: the router *)

(** A pointer compared with NULL. *)
Definition found (p : option string) : bool :=
  match p with Some _ => true | None => false end.

(** The four literals [strstr] looks for in a body, and the literal sent
    back after a relay request. *)
Definition state_on : string := quoted "state" +:+ ":1".
Definition state_on_sp : string := quoted "state" +:+ ": 1".
Definition state_off : string := quoted "state" +:+ ":0".
Definition state_off_sp : string := quoted "state" +:+ ": 0".
Definition success_body : string := "{" +:+ quoted "success" +:+ ":true}".

Section Router.

(** [HTML_PAGE] comes from [web_pages.h]: the characters of the page. *)
Variable HTML_PAGE : string.

(** [process_http_request(sock, request, len)], from the board [st]: the
    board afterwards and the calls of [send], in order; [None] where
    [sscanf] overruns [method] or [uri]. [len] is not used by the code. *)
Definition process_http_request (sock : Z) (request : string) (st : board)
  : option (board * list io) :=
  let req := c_str request in
  match sscanf_s_s req 16 128 with
  | None => None
  | Some (method, uri) =>
      if strcmp method "GET" =? 0 then
        if (strcmp uri "/" =? 0) || (strcmp uri "/index.html" =? 0) then
          Some (st, send_http_response sock "200 OK" "text/html" HTML_PAGE)
        else if strcmp uri "/api/relays" =? 0 then
          let response_buf := get_relays_json st 512 in
          Some (st, send_http_response sock "200 OK" "application/json"
                      response_buf)
        else
          Some (st, send_http_response sock "404 Not Found" "text/plain"
                      "Not Found")
      else if strcmp method "POST" =? 0 then
        if strncmp uri "/api/relay/" 11 =? 0 then
          let relay_num := char_at uri 11 - code "0" in
          match strstr req (CRLF +:+ CRLF) with
          | Some p =>
              let body := advance 4 p in
              let state :=
                if found (strstr body state_on)
                   || found (strstr body state_on_sp)
                then 1
                else if found (strstr body state_off)
                        || found (strstr body state_off_sp)
                then 0
                else 0 in
              Some (set_relay (uint8 relay_num) (uint8 state) st,
                    send_http_response sock "200 OK" "application/json"
                      success_body)
          | None => Some (st, [])
          end
        else if strcmp uri "/api/relays/all/on" =? 0 then
          Some (foldl (fun b i => set_relay (uint8 i) 1 b) st
                      (seqZ 1 RELAY_COUNT),
                send_http_response sock "200 OK" "application/json"
                  success_body)
        else if strcmp uri "/api/relays/all/off" =? 0 then
          Some (foldl (fun b i => set_relay (uint8 i) 0 b) st
                      (seqZ 1 RELAY_COUNT),
                send_http_response sock "200 OK" "application/json"
                  success_body)
        else
          Some (st, send_http_response sock "404 Not Found" "text/plain"
                      "Not Found")
      else Some (st, [])
  end.

End Router.

(** The requests handled one after another, as the loop of [main] hands
    them to [process_http_request] connection by connection. *)
Fixpoint serve (HTML_PAGE : string) (sock : Z) (requests : list string)
    (st : board) : option (board * list io) :=
  match requests with
  | [] => Some (st, [])
  | r :: rest =>
      '(st1, out1) ← process_http_request HTML_PAGE sock r st;
      '(st2, out2) ← serve HTML_PAGE sock rest st1;
      Some (st2, out1 ++ out2)
  end.

(** ** Vocabulary of the properties *)

(** What the router reads of a request: the two tokens of the request line
    and the text behind the first blank line. *)
Definition request_line (request : string) : option (string * string) :=
  sscanf_s_s (c_str request) 16 128.

Definition request_body (request : string) : option string :=
  advance 4 <$> strstr (c_str request) (CRLF +:+ CRLF).

(** No character of [s] is the terminator. *)
Fixpoint nul_free (s : string) : Prop :=
  match s with
  | EmptyString => True
  | String c rest => code c <> 0 /\ nul_free rest
  end.

(** The decimal digit of [n]. *)
Definition digit (n : Z) : ascii := ascii_of_N (Z.to_N (code "0" + n)).

Definition ON : Z := 1.
Definition OFF : Z := 0.

(** The stored state of channel [n], channels being numbered from 1. *)
Definition channel (st : board) (n : Z) : option Z :=
  g_relay_states st !! Z.to_nat (n - 1).

(** What the type [uint8_t [RELAY_COUNT]] says of the store. *)
Definition well_formed (st : board) : Prop :=
  length (g_relay_states st) = Z.to_nat RELAY_COUNT
  /\ Forall (fun v => 0 <= v < 256) (g_relay_states st).

(** Eight entries, each 0 or 1. *)
Definition relay_inv (st : board) : Prop :=
  length (g_relay_states st) = Z.to_nat RELAY_COUNT
  /\ Forall (fun v => v = OFF \/ v = ON) (g_relay_states st).

(** The state the router reads off a body: ON when either ON text occurs,
    OFF otherwise. *)
Definition body_state (body : string) : Z :=
  if found (strstr body state_on) || found (strstr body state_on_sp) then ON
  else OFF.

(** The answer to a relay request that is carried out, and the answer to
    a request that has no route. *)
Definition success (sock : Z) : list io :=
  send_http_response sock "200 OK" "application/json" success_body.

Definition not_found (sock : Z) : list io :=
  send_http_response sock "404 Not Found" "text/plain" "Not Found".

(** A relay request as a client puts it on the wire: request line, one
    header line, blank line, body. *)
Definition relay_request (n : Z) (body : string) : string :=
  "POST /api/relay/"
    +:+ String (digit n)
          (" HTTP/1.1" +:+ CRLF +:+ "Content-Type: application/json" +:+ CRLF
             +:+ CRLF +:+ body).

(** Two bodies without a member named [state]: one whose only member is
    [other_state], one whose only member has a name that ends, behind an
    escaped double quote, in [state]. *)
Definition other_state_body : string := "{" +:+ quoted "other_state" +:+ ":1}".
Definition BACKSLASH : string := String "092" EmptyString.
Definition escaped_key_body : string :=
  "{" +:+ DQ +:+ "my" +:+ BACKSLASH +:+ quoted "state" +:+ ":1}".

(** Sample inputs: a page, bodies, and requests without a body. *)
Definition sample_page : string := "<html><body>relays</body></html>".
Definition body_on : string := "{" +:+ quoted "state" +:+ ":1}".
Definition body_on_sp : string := "{" +:+ quoted "state" +:+ ": 1}".
Definition body_off : string := "{" +:+ quoted "state" +:+ ":0}".
Definition body_toggle : string := "{" +:+ quoted "toggle" +:+ ":true}".
Definition plain_request (method uri : string) : string :=
  method +:+ " " +:+ uri +:+ " HTTP/1.1" +:+ CRLF +:+ CRLF.
Definition all_on : board := Board (replicate (Z.to_nat RELAY_COUNT) ON) ∅.

(** The JSON object of the interface description, written from its shape:
    one member [relay_k] per channel [k], in channel order, each holding an
    object with the single member [state]. *)
Definition spec_relay_member (k : nat) (v : Z) : string :=
  quoted ("relay_" +:+ fmt_d (Z.of_nat (S k))) +:+ ":{"
    +:+ quoted "state" +:+ ":" +:+ fmt_d v +:+ "}".

Fixpoint spec_join (sep : string) (parts : list string) : string :=
  match parts with
  | [] => EmptyString
  | [x] => x
  | x :: rest => x +:+ sep +:+ spec_join sep rest
  end.

Definition spec_relays_json (states : list Z) : string :=
  "{" +:+ spec_join "," (imap spec_relay_member states) +:+ "}".

(** ** main.c: the server loop *)

(** The socket status [getSn_SR] returns, as the [switch] of
    [http_server_run] tells the values apart; every value without a
    [case] is [SOCK_OTHER]. *)
Inductive sock_state : Type :=
| SOCK_CLOSED
| SOCK_INIT
| SOCK_ESTABLISHED
| SOCK_CLOSE_WAIT
| SOCK_OTHER.

(** What one poll finds in the socket chip: the status register and the
    bytes waiting in the receive buffer ([getSn_RX_RSR] is their number, a
    16 bit register of a buffer of at most 16 KB). *)
Record socket_view : Type := SocketView {
  sn_sr : sock_state;
  rx : string
}.

(** The calls of the socket library: [send] as before, [recv] of [len]
    bytes, [disconnect], [listen], and [socket(sock, Sn_MR_TCP, port, 0)]. *)
Inductive call : Type :=
| Io (e : io)
| Recv (sock : Z) (len : Z)
| Disconnect (sock : Z)
| Listen (sock : Z)
| Socket (sock : Z) (port : Z).

(** [http_server_run(sock)] at one poll: the board afterwards and the
    library calls in order. [recv] fills [buffer[0 .. size-1]] and the code
    stores the terminator at [buffer[size]]; [buffer] has [MAX_HTTP_BUF]
    elements, so for [size = MAX_HTTP_BUF] the store is past its end and
    the behaviour is undefined ([None]). *)
Definition http_server_run (HTML_PAGE : string) (sock : Z)
    (view : socket_view) (st : board) : option (board * list call) :=
  match sn_sr view with
  | SOCK_ESTABLISHED =>
      let size := Z.of_nat (String.length (rx view)) in
      if 0 <? size then
        let size := if MAX_HTTP_BUF <? size then MAX_HTTP_BUF else size in
        let buffer := String.substring 0 (Z.to_nat size) (rx view) in
        if size <? MAX_HTTP_BUF then
          '(st', out) ← process_http_request HTML_PAGE sock buffer st;
          Some (st', Recv sock size :: (Io <$> out) ++ [Disconnect sock])
        else None
      else Some (st, [])
  | SOCK_CLOSE_WAIT => Some (st, [Disconnect sock])
  | SOCK_INIT => Some (st, [Listen sock])
  | SOCK_CLOSED => Some (st, [Socket sock HTTP_PORT])
  | SOCK_OTHER => Some (st, [])
  end.

(** [while (1) http_server_run(sock);] over the polls [views]. *)
Fixpoint server_loop (HTML_PAGE : string) (sock : Z)
    (views : list socket_view) (st : board) : option (board * list call) :=
  match views with
  | [] => Some (st, [])
  | v :: rest =>
      '(st1, calls1) ← http_server_run HTML_PAGE sock v st;
      '(st2, calls2) ← server_loop HTML_PAGE sock rest st1;
      Some (st2, calls1 ++ calls2)
  end.

(** [main] up to the polls [views]: [relay_init], the first [socket] call,
    then the loop. The set-up of the console and of the Ethernet chip
    touches neither the board nor the socket. *)
Definition main (HTML_PAGE : string) (views : list socket_view)
  : option (board * list call) :=
  '(st, calls) ← server_loop HTML_PAGE HTTP_SOCKET views (relay_init power_on);
  Some (st, Socket HTTP_SOCKET HTTP_PORT :: calls).

(** ** Further vocabulary *)

(** Every relay pin is driven at the level its store entry says. *)
Definition pins_follow (st : board) : Prop :=
  forall i pin v,
    relay_pins !! i = Some pin ->
    g_relay_states st !! i = Some v ->
    gpio_out st !! pin = Some (negb (v =? 0)).

(** A board of eight entries whose pins follow them. *)
Definition wired (st : board) : Prop :=
  length (g_relay_states st) = Z.to_nat RELAY_COUNT /\ pins_follow st.

(** No character of [s] is white space. *)
Fixpoint no_space (s : string) : Prop :=
  match s with
  | EmptyString => True
  | String c rest => isspace c = false /\ no_space rest
  end.

(** A token as [%s] reads it: not empty, no white space, no terminator. *)
Definition token (s : string) : Prop :=
  s <> EmptyString /\ no_space s /\ nul_free s.

(** The start of a request as a client writes it: method, space, path,
    space, and whatever follows. *)
Definition request_text (method uri rest : string) : string :=
  method +:+ " " +:+ uri +:+ " " +:+ rest.

(** The header of the answer to [GET /api/relays] for a store of eight
    entries that are 0 or 1. *)
Definition relays_header : string :=
  "HTTP/1.1 200 OK" +:+ CRLF +:+ "Content-Type: application/json" +:+ CRLF
    +:+ "Content-Length: 177" +:+ CRLF +:+ "Connection: close" +:+ CRLF
    +:+ CRLF.

(** The header of a complete response as the interface description has
    it: status line, content type, the length of the body, [Connection:
    close], blank line. *)
Definition wire_header (status content_type : string) (content_length : nat)
  : string :=
  "HTTP/1.1 " +:+ status +:+ CRLF
    +:+ "Content-Type: " +:+ content_type +:+ CRLF
    +:+ "Content-Length: " +:+ fmt_d (Z.of_nat content_length) +:+ CRLF
    +:+ "Connection: close" +:+ CRLF +:+ CRLF.

(** The two fixed answers on the wire: the success answer and its body of
    16 characters, the 404 answer and its body of 9 characters. *)
Definition success_header : string :=
  "HTTP/1.1 200 OK" +:+ CRLF +:+ "Content-Type: application/json" +:+ CRLF
    +:+ "Content-Length: 16" +:+ CRLF +:+ "Connection: close" +:+ CRLF
    +:+ CRLF.
Definition success_json : string := "{" +:+ DQ +:+ "success" +:+ DQ +:+ ":true}".
Definition not_found_header : string :=
  "HTTP/1.1 404 Not Found" +:+ CRLF +:+ "Content-Type: text/plain" +:+ CRLF
    +:+ "Content-Length: 9" +:+ CRLF +:+ "Connection: close" +:+ CRLF
    +:+ CRLF.

(** A method of 16 characters, and a request that starts with it. *)
Definition long_method : string := "AAAAAAAAAAAAAAAA".
Definition long_method_request : string := plain_request long_method "/".

(** Sample polls: a closed socket, an established one with nothing
    waiting, one with a relay request. *)
Definition view_closed : socket_view := SocketView SOCK_CLOSED EmptyString.
Definition view_quiet : socket_view :=
  SocketView SOCK_ESTABLISHED EmptyString.
Definition view_relay_3 : socket_view :=
  SocketView SOCK_ESTABLISHED (relay_request 3 body_on).


(** ** Facts about the string routines *)

Section CStrFacts.

Lemma code_inj a b : code a = code b -> a = b.
Proof.
  unfold code. intros H. apply N2Z.inj in H.
  rewrite <- (ascii_N_embedding a), <- (ascii_N_embedding b). by rewrite H.
Qed.

Lemma code_range c : 0 <= code c < 256.
Proof.
  unfold code. pose proof (N_ascii_bounded c) as H. lia.
Qed.

Lemma append_assoc (a b c : string) : (a +:+ b) +:+ c = a +:+ b +:+ c.
Proof. induction a as [|x a IH]; simpl; [done | by rewrite IH]. Qed.

Lemma append_empty_r (a : string) : a +:+ EmptyString = a.
Proof. induction a as [|x a IH]; simpl; [done | by rewrite IH]. Qed.

Lemma length_append (a b : string) :
  String.length (a +:+ b) = (String.length a + String.length b)%nat.
Proof. induction a as [|x a IH]; simpl; [done | by rewrite IH]. Qed.

(** *** [c_str] *)

Lemma c_str_nul_free mem : nul_free (c_str mem).
Proof.
  induction mem as [|c rest IH]; simpl; [done |].
  destruct (Ascii.eqb c "000") eqn:E; simpl; [done |].
  split; [| done]. intros H0. apply Ascii.eqb_neq in E. apply E.
  by apply code_inj.
Qed.

Lemma c_str_prefix mem : exists rest, mem = c_str mem +:+ rest.
Proof.
  induction mem as [|c rest [tl IH]]; simpl; [by exists EmptyString |].
  destruct (Ascii.eqb c "000"); simpl.
  - by exists (String c rest).
  - exists tl. by rewrite <- IH.
Qed.

Lemma c_str_id s : nul_free s -> c_str s = s.
Proof.
  induction s as [|c rest IH]; simpl; [done |]. intros [Hc Hr].
  destruct (Ascii.eqb c "000") eqn:E.
  - apply Ascii.eqb_eq in E. subst c. by destruct Hc.
  - by rewrite IH.
Qed.

Lemma occurs_c_str pat mem : occurs pat (c_str mem) -> occurs pat mem.
Proof.
  intros (pre & post & H). destruct (c_str_prefix mem) as [tl Htl].
  exists pre, (post +:+ tl). rewrite Htl at 1. rewrite H.
  by rewrite !append_assoc.
Qed.

(** *** [strcmp] and [strncmp] *)

Lemma strcmp_refl s : strcmp s s = 0.
Proof.
  induction s as [|c s IH]; simpl; [done |]. by rewrite Z.eqb_refl.
Qed.

Lemma strcmp_0 a b :
  nul_free a -> nul_free b -> strcmp a b = 0 <-> a = b.
Proof.
  intros Ha Hb. split; [| intros ->; apply strcmp_refl].
  revert b Hb. induction a as [|x a IH]; intros [|y b]; simpl in *.
  - done.
  - intros [Hy _] H. lia.
  - intros _ H. destruct Ha as [Hx _]. lia.
  - intros [Hy Hb] H. destruct Ha as [Hx Ha].
    destruct (code x =? code y) eqn:E.
    + apply Z.eqb_eq, code_inj in E. subst y. f_equal. by apply IH.
    + apply Z.eqb_neq in E. lia.
Qed.

Lemma strncmp_prefix p u :
  nul_free p ->
  strncmp u p (String.length p) = 0 <-> exists rest, u = p +:+ rest.
Proof.
  intros Hp. revert u. induction p as [|y p IH]; intros u; simpl in *.
  - split; [intros _; by exists u | done].
  - destruct Hp as [Hy Hp]. destruct u as [|x u].
    + split; [lia | by intros [rest H]].
    + destruct (code x =? code y) eqn:E.
      * apply Z.eqb_eq, code_inj in E. subst y. rewrite (IH Hp u).
        split; intros [rest H]; exists rest; congruence.
      * apply Z.eqb_neq in E. split; [lia |].
        intros [rest H]. injection H as -> _. by destruct E.
Qed.

(** *** [strstr] *)

Lemma starts_with_app p s :
  starts_with p s = true <-> exists rest, s = p +:+ rest.
Proof.
  revert s. induction p as [|a p IH]; intros s; simpl.
  - split; [intros _; by exists s | done].
  - destruct s as [|b s].
    + split; [done | by intros [rest H]].
    + rewrite andb_true_iff, Ascii.eqb_eq, IH. split.
      * intros [-> [rest ->]]. by exists rest.
      * intros [rest H]. injection H as -> ->. split; [done | by exists rest].
Qed.

Lemma strstr_unfold h n :
  strstr h n =
    if starts_with n h then Some h
    else match h with
         | EmptyString => None
         | String _ t => strstr t n
         end.
Proof. by destruct h. Qed.

Lemma strstr_Some h n p :
  strstr h n = Some p ->
  exists pre rest, h = pre +:+ p /\ p = n +:+ rest.
Proof.
  induction h as [|c h IH]; simpl.
  - destruct (starts_with n EmptyString) eqn:E; [| done].
    intros [= <-]. apply starts_with_app in E as [rest E].
    by exists EmptyString, rest.
  - destruct (starts_with n (String c h)) eqn:E.
    + intros [= <-]. apply starts_with_app in E as [rest E].
      by exists EmptyString, rest.
    + intros H. destruct (IH H) as (pre & rest & -> & Hp).
      by exists (String c pre), rest.
Qed.

Lemma strstr_found h n : found (strstr h n) = true <-> occurs n h.
Proof.
  split.
  - destruct (strstr h n) as [p|] eqn:E; [intros _ | done].
    apply strstr_Some in E as (pre & rest & -> & ->). by exists pre, rest.
  - intros (pre & post & ->).
    induction pre as [|c pre IH]; simpl.
    + assert (starts_with n (n +:+ post) = true) as Hs
        by (apply starts_with_app; by exists post).
      by rewrite strstr_unfold, Hs.
    + by destruct (starts_with n (String c (pre +:+ n +:+ post))).
Qed.

Lemma strstr_None h n : strstr h n = None <-> ~ occurs n h.
Proof.
  rewrite <- strstr_found. destruct (strstr h n); simpl; split; done.
Qed.

Lemma advance_length_app p s : advance (String.length p) (p +:+ s) = s.
Proof. induction p as [|c p IH]; simpl; [by destruct s | done]. Qed.

(** *** [sscanf] *)

Lemma skip_space_nul_free s : nul_free s -> nul_free (skip_space s).
Proof.
  induction s as [|c s IH]; simpl; [done |]. intros [Hc Hs].
  destruct (isspace c); simpl; auto.
Qed.

Lemma scan_token_nul_free s :
  nul_free s -> nul_free (scan_token s).1 /\ nul_free (scan_token s).2.
Proof.
  induction s as [|c s IH]; simpl; [done |]. intros [Hc Hs].
  destruct (isspace c); simpl; [done |].
  destruct (scan_token s) as [tok rem]. simpl in *. destruct (IH Hs). auto.
Qed.

Lemma sscanf_nul_free s sa sb a b :
  nul_free s -> sscanf_s_s s sa sb = Some (a, b) ->
  nul_free a /\ nul_free b.
Proof.
  intros Hs. unfold sscanf_s_s.
  pose proof (skip_space_nul_free s Hs) as H1.
  destruct (skip_space s) as [|c1 s1] eqn:E1; [by intros [= <- <-] |].
  pose proof (scan_token_nul_free _ H1) as [Ha Hr].
  destruct (scan_token (String c1 s1)) as [tok rem]. simpl in Ha, Hr.
  destruct (sa <=? String.length tok)%nat; [done |].
  pose proof (skip_space_nul_free rem Hr) as H2.
  destruct (skip_space rem) as [|c2 s2] eqn:E2; [by intros [= <- <-] |].
  pose proof (scan_token_nul_free _ H2) as [Hb _].
  destruct (scan_token (String c2 s2)) as [tok2 rem2]. simpl in Hb.
  destruct (sb <=? String.length tok2)%nat; [done |]. by intros [= <- <-].
Qed.

(** *** [snprintf] and [%d] *)

Lemma substring_all n s :
  (String.length s <= n)%nat -> String.substring 0 n s = s.
Proof.
  revert n. induction s as [|c s IH]; intros [|n]; simpl; try done; try lia.
  intros H. rewrite IH; [done | lia].
Qed.

Lemma snprintf_fits size s :
  (String.length s < size)%nat -> snprintf size s = s.
Proof. intros H. unfold snprintf. apply substring_all. lia. Qed.

Lemma fmt_d_uint8_length v :
  0 <= v < 256 -> (String.length (fmt_d v) <= 3)%nat.
Proof.
  intros Hv.
  assert (forallb (fun n => String.length (fmt_d (Z.of_nat n)) <=? 3)%nat
            (seq 0 256) = true) as Hall by (vm_compute; reflexivity).
  rewrite forallb_forall in Hall.
  specialize (Hall (Z.to_nat v)). rewrite Z2Nat.id in Hall by lia.
  apply Nat.leb_le, Hall, in_seq. lia.
Qed.

End CStrFacts.

(** ** The relay store *)

Section Store.

Implicit Types (st : board) (n state : Z).

Lemma set_relay_in_range n state st :
  1 <= n <= RELAY_COUNT ->
  set_relay n state st =
    Board (<[Z.to_nat (n - 1) := if state =? 0 then 0 else 1]>
             (g_relay_states st))
          (<[relay_pins !!! Z.to_nat (n - 1) := negb (state =? 0)]>
             (gpio_out st)).
Proof.
  intros [H1 H8]. unfold set_relay.
  by rewrite (proj2 (Z.leb_le _ _) H1), (proj2 (Z.leb_le _ _) H8).
Qed.

Lemma set_relay_out_of_range n state st :
  ~ (1 <= n <= RELAY_COUNT) -> set_relay n state st = st.
Proof.
  intros H. unfold set_relay.
  destruct (1 <=? n) eqn:E1; [| done].
  destruct (n <=? RELAY_COUNT) eqn:E2; [| done].
  apply Z.leb_le in E1, E2. lia.
Qed.

Lemma set_relay_length n state st :
  length (g_relay_states (set_relay n state st)) =
  length (g_relay_states st).
Proof.
  unfold set_relay. destruct (_ && _); simpl; [| done].
  apply length_insert.
Qed.

Lemma set_relay_idem n state st :
  set_relay n state (set_relay n state st) = set_relay n state st.
Proof.
  unfold set_relay. destruct (_ && _) eqn:E; simpl; rewrite ?E; [| done].
  by rewrite list_insert_insert_eq, insert_insert_eq.
Qed.

Lemma channel_set_relay_eq n state st :
  length (g_relay_states st) = Z.to_nat RELAY_COUNT ->
  1 <= n <= RELAY_COUNT ->
  channel (set_relay n state st) n = Some (if state =? 0 then OFF else ON).
Proof.
  intros Hlen Hn. rewrite set_relay_in_range by done. unfold channel. simpl.
  apply list_lookup_insert_eq. rewrite Hlen. unfold RELAY_COUNT in *. lia.
Qed.

Lemma channel_set_relay_ne n m state st :
  1 <= m -> m <> n ->
  channel (set_relay n state st) m = channel st m.
Proof.
  intros Hm Hne. unfold set_relay. destruct (_ && _) eqn:E; [| done].
  apply andb_true_iff in E as [E1 E2]. apply Z.leb_le in E1, E2.
  unfold channel. simpl. apply list_lookup_insert_ne. lia.
Qed.

Lemma set_relay_inv n state st : relay_inv st -> relay_inv (set_relay n state st).
Proof.
  intros [Hlen Hall]. split; [by rewrite set_relay_length |].
  unfold set_relay. destruct (_ && _); simpl; [| done].
  apply Forall_insert; [done |]. unfold OFF, ON. destruct (state =? 0); auto.
Qed.

Lemma set_relay_well_formed n state st :
  well_formed st -> well_formed (set_relay n state st).
Proof.
  intros [Hlen Hall]. split; [by rewrite set_relay_length |].
  unfold set_relay. destruct (_ && _); simpl; [| done].
  apply Forall_insert; [done |]. destruct (state =? 0); lia.
Qed.

Lemma relay_inv_well_formed st : relay_inv st -> well_formed st.
Proof.
  intros [Hlen Hall]. split; [done |].
  eapply Forall_impl; [exact Hall |]. unfold OFF, ON. intros v [-> | ->]; lia.
Qed.

(** The loops over all channels. *)
Lemma set_all_states state st :
  length (g_relay_states st) = Z.to_nat RELAY_COUNT ->
  g_relay_states
    (foldl (fun b i => set_relay (uint8 i) state b) st (seqZ 1 RELAY_COUNT))
  = replicate (Z.to_nat RELAY_COUNT) (if state =? 0 then 0 else 1).
Proof.
  destruct st as [g gp]. simpl. intros Hlen.
  do 9 (destruct g as [|? g]; try discriminate Hlen). clear Hlen.
  reflexivity.
Qed.

Lemma relay_init_states st :
  length (g_relay_states st) = Z.to_nat RELAY_COUNT ->
  g_relay_states (relay_init st) = replicate (Z.to_nat RELAY_COUNT) OFF.
Proof.
  destruct st as [g gp]. simpl. intros Hlen.
  do 9 (destruct g as [|? g]; try discriminate Hlen). clear Hlen.
  reflexivity.
Qed.

End Store.

(** ** The responses *)

Section Responses.

Implicit Types (status content_type body buf : string) (sock : Z).

Lemma nul_free_app a b : nul_free (a +:+ b) <-> nul_free a /\ nul_free b.
Proof.
  induction a as [|c a IH]; simpl; [tauto |]. rewrite IH. tauto.
Qed.

Lemma nul_free_substring n s : nul_free s -> nul_free (String.substring 0 n s).
Proof.
  revert n. induction s as [|c s IH]; intros [|n]; simpl; try done.
  intros [Hc Hs]. split; [done | by apply IH].
Qed.

Lemma substring_length_le n s :
  (String.length (String.substring 0 n s) <= n)%nat.
Proof.
  revert n. induction s as [|c s IH]; intros [|n]; simpl; try lia.
  specialize (IH n). lia.
Qed.

Lemma substring_length n s :
  String.length (String.substring 0 n s) = (n `min` String.length s)%nat.
Proof.
  revert n. induction s as [|c s IH]; intros [|n]; simpl; try done.
  by rewrite IH.
Qed.

Lemma string_of_uint_nul_free d : nul_free (NilEmpty.string_of_uint d).
Proof. induction d; simpl; (done || (split; [discriminate | done])). Qed.

Lemma fmt_d_nul_free z : nul_free (fmt_d z).
Proof.
  unfold fmt_d, NilZero.string_of_int, NilZero.string_of_uint.
  destruct (Z.to_int z) as [d | d].
  - pose proof (string_of_uint_nul_free d) as H.
    destruct d; (exact H || (simpl; split; [discriminate | done])).
  - split; [discriminate |].
    pose proof (string_of_uint_nul_free d) as H.
    destruct d; (exact H || (simpl; split; [discriminate | done])).
Qed.

Lemma double_digits d :
  (Decimal.nb_digits (Decimal.Little.double d) <= S (Decimal.nb_digits d))%nat
  /\ (Decimal.nb_digits (Decimal.Little.succ_double d)
      <= S (Decimal.nb_digits d))%nat.
Proof. induction d; simpl; lia. Qed.

Lemma to_little_uint_digits p :
  (Decimal.nb_digits (Pos.to_little_uint p) <= Pos.size_nat p)%nat.
Proof.
  induction p as [p IH | p IH |]; simpl; [| | lia].
  - pose proof (proj2 (double_digits (Pos.to_little_uint p))). lia.
  - pose proof (proj1 (double_digits (Pos.to_little_uint p))). lia.
Qed.

Lemma string_of_uint_length d :
  String.length (NilEmpty.string_of_uint d) = Decimal.nb_digits d.
Proof. induction d; simpl; congruence. Qed.

(** [%d] of a number below 2^31 has at most 31 characters. *)
Lemma fmt_d_length z :
  0 <= z < 2 ^ 31 -> (String.length (fmt_d z) <= 31)%nat.
Proof.
  intros Hz. destruct z as [|p|p]; [simpl; lia | | lia].
  unfold fmt_d, Z.to_int, NilZero.string_of_int, NilZero.string_of_uint.
  assert (String.length (NilEmpty.string_of_uint (Pos.to_uint p)) <= 31)%nat
    as Hlen.
  { rewrite string_of_uint_length. unfold Pos.to_uint.
    rewrite nb_digits_rev.
    pose proof (to_little_uint_digits p).
    assert (Pos.size_nat p <= Pos.size_nat (2 ^ 31 - 1))%nat.
    { destruct (decide (p = 2 ^ 31 - 1)%positive) as [-> | Hne]; [done |].
      apply Pos.size_nat_monotone. lia. }
    change (Pos.size_nat (2 ^ 31 - 1)) with 31%nat in *. lia. }
  destruct (Pos.to_uint p); simpl in *; lia.
Qed.

(** A string without terminator and shorter than 65536 characters is
    handed to [send] whole. *)
Lemma send_whole sock buf :
  nul_free buf -> Z.of_nat (String.length buf) < 65536 ->
  send sock buf (strlen buf) = Send sock buf.
Proof.
  intros Hnul Hlen. unfold send, strlen, uint16. rewrite c_str_id by done.
  rewrite Z.mod_small by lia. by rewrite Nat2Z.id, substring_all.
Qed.

Lemma http_header_nul_free status content_type body :
  nul_free (http_header status content_type body).
Proof.
  unfold http_header, snprintf. apply nul_free_substring.
  rewrite !nul_free_app.
  pose proof (c_str_nul_free status). pose proof (c_str_nul_free content_type).
  pose proof (fmt_d_nul_free (strlen body)).
  repeat split; (done || (simpl; repeat split; discriminate)).
Qed.

Lemma http_header_length status content_type body :
  (String.length (http_header status content_type body) <= 255)%nat.
Proof. unfold http_header, snprintf. apply (substring_length_le (256 - 1)). Qed.

Lemma send_header sock status content_type body :
  send sock (http_header status content_type body)
       (strlen (http_header status content_type body))
  = Send sock (http_header status content_type body).
Proof.
  apply send_whole; [apply http_header_nul_free |].
  pose proof (http_header_length status content_type body). lia.
Qed.

(** The header is the complete header of the interface description when
    nothing is cut. *)
Lemma http_header_complete status content_type body :
  nul_free status -> nul_free content_type -> nul_free body ->
  (String.length status + String.length content_type <= 150)%nat ->
  Z.of_nat (String.length body) < 65536 ->
  http_header status content_type body =
    wire_header status content_type (String.length body).
Proof.
  intros Hs Hc Hb Hshort Hbody. unfold http_header, strlen.
  rewrite !c_str_id by done. fold (wire_header status content_type
                                     (String.length body)).
  apply snprintf_fits.
  pose proof (fmt_d_length (Z.of_nat (String.length body))) as Hd.
  unfold wire_header. rewrite !length_append. simpl. lia.
Qed.

Lemma send_http_response_complete sock status content_type body :
  nul_free status -> nul_free content_type -> nul_free body ->
  (String.length status + String.length content_type <= 150)%nat ->
  Z.of_nat (String.length body) < 65536 ->
  send_http_response sock status content_type body =
    [Send sock (wire_header status content_type (String.length body));
     Send sock body].
Proof.
  intros Hs Hc Hb Hshort Hbody. unfold send_http_response.
  rewrite send_header, (send_whole sock body) by done.
  by rewrite http_header_complete.
Qed.

Lemma substring_app_prefix pre s n :
  (String.length pre <= n)%nat ->
  String.substring 0 n (pre +:+ s) =
    pre +:+ String.substring 0 (n - String.length pre) s.
Proof.
  revert n. induction pre as [|c pre IH]; intros n Hn; simpl.
  - by rewrite Nat.sub_0_r.
  - destruct n as [|n]; [simpl in Hn; lia |]. simpl.
    rewrite IH by (simpl in Hn; lia). done.
Qed.

(** Whatever is cut from a header, its status line is not, for a status of
    at most 100 characters. *)
Lemma http_header_status_line status content_type body :
  nul_free status -> (String.length status <= 100)%nat ->
  exists tail,
    http_header status content_type body =
      "HTTP/1.1 " +:+ status +:+ CRLF +:+ tail.
Proof.
  intros Hnul Hlen. unfold http_header, snprintf. rewrite (c_str_id status Hnul).
  rewrite <- (append_assoc status CRLF), <- (append_assoc "HTTP/1.1 ").
  rewrite substring_app_prefix
    by (rewrite !length_append; simpl; lia).
  eexists. by rewrite !append_assoc.
Qed.

Lemma send_is_Send sock buf len : exists data, send sock buf len = Send sock data.
Proof. by eexists. Qed.

Lemma send_http_response_sock sock status content_type body sk data :
  Send sk data ∈ send_http_response sock status content_type body ->
  sk = sock.
Proof.
  unfold send_http_response.
  destruct (send_is_Send sock (http_header status content_type body)
              (strlen (http_header status content_type body))) as [d1 ->].
  destruct (send_is_Send sock body (strlen body)) as [d2 ->].
  intros Hin.
  repeat (apply elem_of_cons in Hin as [Heq | Hin];
          [by injection Heq as -> _ |]).
  by apply elem_of_nil in Hin.
Qed.

Lemma success_on_wire sock :
  success sock = [Send sock success_header; Send sock success_json].
Proof.
  unfold success. rewrite send_http_response_complete.
  - reflexivity.
  - simpl. repeat split; discriminate.
  - simpl. repeat split; discriminate.
  - simpl. repeat split; discriminate.
  - simpl. lia.
  - simpl. lia.
Qed.

Lemma not_found_on_wire sock :
  not_found sock = [Send sock not_found_header; Send sock "Not Found"].
Proof.
  unfold not_found. rewrite send_http_response_complete.
  - reflexivity.
  - simpl. repeat split; discriminate.
  - simpl. repeat split; discriminate.
  - simpl. repeat split; discriminate.
  - simpl. lia.
  - simpl. lia.
Qed.

End Responses.

(** ** The router, route by route *)

Section Routes.

Variable HTML_PAGE : string.
Implicit Types (st : board) (sock : Z) (request uri tail : string).

Abbreviation process := (process_http_request HTML_PAGE).

#[local] Arguments advance : simpl never.

Lemma request_line_nul_free request method uri :
  request_line request = Some (method, uri) ->
  nul_free method /\ nul_free uri.
Proof. apply sscanf_nul_free, c_str_nul_free. Qed.

(** The router answers whenever the request line fits its buffers. *)
Lemma process_defined sock request st :
  is_Some (request_line request) ->
  is_Some (process sock request st).
Proof.
  unfold request_line, process_http_request. intros [[m u] ->].
  repeat match goal with
         | |- is_Some (if ?b then _ else _) => destruct b
         | |- is_Some (match ?o with Some _ => _ | None => _ end) => destruct o
         | |- is_Some (Some _) => eexists; reflexivity
         end.
Qed.

Lemma process_undefined sock request st :
  request_line request = None -> process sock request st = None.
Proof.
  unfold request_line, process_http_request. by intros ->.
Qed.

Lemma route_index sock request st uri :
  request_line request = Some ("GET", uri) ->
  uri = "/" \/ uri = "/index.html" ->
  process sock request st =
    Some (st, send_http_response sock "200 OK" "text/html" HTML_PAGE).
Proof.
  unfold request_line, process_http_request. intros -> [-> | ->]; reflexivity.
Qed.

Lemma route_get_relays sock request st :
  request_line request = Some ("GET", "/api/relays") ->
  process sock request st =
    Some (st, send_http_response sock "200 OK" "application/json"
                (get_relays_json st 512)).
Proof.
  unfold request_line, process_http_request. by intros ->.
Qed.

Lemma route_post_relay sock request st tail :
  request_line request = Some ("POST", "/api/relay/" +:+ tail) ->
  process sock request st =
    match request_body request with
    | Some body =>
        Some (set_relay (uint8 (char_at tail 0 - code "0"))
                (body_state body) st,
              send_http_response sock "200 OK" "application/json"
                success_body)
    | None => Some (st, [])
    end.
Proof.
  unfold request_line, request_body, process_http_request. intros ->.
  set (hay := strstr (c_str request) (CRLF +:+ CRLF)).
  simpl. destruct hay as [p|]; simpl; [| done].
  unfold body_state.
  destruct (found (strstr (advance 4 p) state_on)
            || found (strstr (advance 4 p) state_on_sp)); [done |].
  by destruct (found (strstr (advance 4 p) state_off)
               || found (strstr (advance 4 p) state_off_sp)).
Qed.

Lemma route_all sock request st (on : bool) :
  request_line request =
    Some ("POST", if on then "/api/relays/all/on" else "/api/relays/all/off") ->
  process sock request st =
    Some (foldl (fun b i => set_relay (uint8 i) (if on then 1 else 0) b) st
            (seqZ 1 RELAY_COUNT),
          send_http_response sock "200 OK" "application/json" success_body).
Proof.
  unfold request_line, process_http_request. intros ->. by destruct on.
Qed.

(** Whatever [set_relay] keeps, the router keeps, request after request. *)
Lemma process_preserves (P : board -> Prop) sock request st st' out :
  (forall n state b, P b -> P (set_relay n state b)) ->
  P st ->
  process sock request st = Some (st', out) ->
  P st'.
Proof.
  intros Hset HP. unfold process_http_request.
  destruct (sscanf_s_s (c_str request) 16 128) as [[method uri]|]; [| done].
  repeat match goal with
         | |- context [if ?b then _ else _] => destruct b
         | |- context [match ?o with Some _ => _ | None => _ end] =>
             destruct o
         end;
    intros [= <- <-]; repeat apply Hset; done.
Qed.

Lemma serve_preserves (P : board -> Prop) sock requests st st' out :
  (forall n state b, P b -> P (set_relay n state b)) ->
  P st ->
  serve HTML_PAGE sock requests st = Some (st', out) ->
  P st'.
Proof.
  intros Hset. revert st out.
  induction requests as [|r rest IH]; intros st out HP; simpl.
  - by intros [= <- _].
  - destruct (process sock r st) as [[st1 out1]|] eqn:E1; simpl; [| done].
    destruct (serve HTML_PAGE sock rest st1) as [[st2 out2]|] eqn:E2;
      simpl; [| done].
    intros [= <- _]. apply (IH st1 out2); [| done].
    by apply (process_preserves P sock r st st1 out1).
Qed.

Lemma serve_defined sock requests st :
  Forall (fun r => is_Some (request_line r)) requests ->
  is_Some (serve HTML_PAGE sock requests st).
Proof.
  revert st. induction requests as [|r rest IH]; intros st Hall; simpl.
  - by eexists.
  - apply Forall_cons in Hall as [Hr Hrest].
    destruct (process_defined sock r st Hr) as [[st1 out1] ->]. simpl.
    destruct (IH st1 Hrest) as [[st2 out2] ->]. simpl. by eexists.
Qed.

Lemma strcmp_test_false a b :
  nul_free a -> nul_free b -> a <> b -> (strcmp a b =? 0) = false.
Proof.
  intros Ha Hb Hne. apply Z.eqb_neq. by rewrite strcmp_0.
Qed.

Lemma route_other_method sock request st method uri :
  request_line request = Some (method, uri) ->
  method <> "GET" -> method <> "POST" ->
  process sock request st = Some (st, []).
Proof.
  intros Hline Hget Hpost.
  destruct (request_line_nul_free _ _ _ Hline) as [Hm _].
  unfold request_line in Hline. unfold process_http_request. rewrite Hline.
  rewrite !(strcmp_test_false method) by (done || (simpl; repeat split; done)).
  done.
Qed.

Lemma route_get_not_found sock request st uri :
  request_line request = Some ("GET", uri) ->
  uri <> "/" -> uri <> "/index.html" -> uri <> "/api/relays" ->
  process sock request st =
    Some (st, send_http_response sock "404 Not Found" "text/plain"
                "Not Found").
Proof.
  intros Hline H1 H2 H3.
  destruct (request_line_nul_free _ _ _ Hline) as [_ Hu].
  unfold request_line in Hline. unfold process_http_request. rewrite Hline.
  change (strcmp "GET" "GET" =? 0) with true. cbv iota.
  rewrite !(strcmp_test_false uri) by (done || (simpl; repeat split; done)).
  done.
Qed.

Lemma route_post_not_found sock request st uri :
  request_line request = Some ("POST", uri) ->
  (forall tail, uri <> "/api/relay/" +:+ tail) ->
  uri <> "/api/relays/all/on" -> uri <> "/api/relays/all/off" ->
  process sock request st =
    Some (st, send_http_response sock "404 Not Found" "text/plain"
                "Not Found").
Proof.
  intros Hline H1 H2 H3.
  destruct (request_line_nul_free _ _ _ Hline) as [_ Hu].
  unfold request_line in Hline. unfold process_http_request. rewrite Hline.
  change (strcmp "POST" "GET" =? 0) with false.
  change (strcmp "POST" "POST" =? 0) with true. cbv iota.
  assert ((strncmp uri "/api/relay/" 11 =? 0) = false) as ->.
  { apply Z.eqb_neq. intros H0.
    apply (strncmp_prefix "/api/relay/" uri) in H0 as [tail ->].
    - by apply (H1 tail).
    - simpl. repeat split; done. }
  rewrite !(strcmp_test_false uri) by (done || (simpl; repeat split; done)).
  done.
Qed.

(** The channel number read off the character behind the prefix. *)
Lemma relay_num_digit n rest :
  1 <= n <= RELAY_COUNT ->
  uint8 (char_at (String (digit n) rest) 0 - code "0") = n.
Proof.
  unfold RELAY_COUNT. intros Hn.
  assert (n = 1 \/ n = 2 \/ n = 3 \/ n = 4 \/ n = 5 \/ n = 6 \/ n = 7
          \/ n = 8) as Hcases by lia.
  repeat (destruct Hcases as [-> | Hcases]; [reflexivity |]).
  by subst n.
Qed.

Lemma relay_num_not_digit tail :
  (forall n rest, 1 <= n <= RELAY_COUNT -> tail <> String (digit n) rest) ->
  ~ (1 <= uint8 (char_at tail 0 - code "0") <= RELAY_COUNT).
Proof.
  unfold RELAY_COUNT. intros Hno Hin. destruct tail as [|c rest].
  - vm_compute in Hin. destruct Hin as [_ Hin]. by apply Hin.
  - unfold char_at in Hin. simpl in Hin.
    pose proof (code_range c) as Hc.
    change (code "0") with 48 in Hin. unfold uint8 in Hin.
    assert (1 <= code c - 48 <= 8) as Hd.
    { destruct (Z_lt_le_dec (code c) 48) as [Hlt | Hge].
      - replace ((code c - 48) mod 256) with (code c - 48 + 256) in Hin
          by (apply Z.mod_unique with (-1); lia). lia.
      - rewrite Z.mod_small in Hin by lia. done. }
    apply (Hno (code c - 48) rest); [done |]. f_equal.
    unfold digit. change (code "0") with 48.
    replace (48 + (code c - 48)) with (code c) by lia.
    unfold code. by rewrite N2Z.id, ascii_N_embedding.
Qed.

End Routes.

(** ** Properties of the router *)

Section Properties.

Variable HTML_PAGE : string.
Implicit Types (st : board) (sock n : Z) (request body tail : string).

Abbreviation process := (process_http_request HTML_PAGE).

Lemma body_state_on body :
  occurs state_on body \/ occurs state_on_sp body -> body_state body = ON.
Proof.
  unfold body_state. rewrite <- !strstr_found. intros [-> | ->]; [done |].
  by rewrite orb_true_r.
Qed.

Lemma body_state_off body :
  ~ (occurs state_on body \/ occurs state_on_sp body) ->
  body_state body = OFF.
Proof.
  unfold body_state. rewrite <- !strstr_found. intros H.
  destruct (found (strstr body state_on)); [by destruct H; left |].
  destruct (found (strstr body state_on_sp)); [by destruct H; right | done].
Qed.

(** What a relay request does to the store, for a channel in range. *)
Lemma post_relay_channel sock request st n rest body :
  well_formed st ->
  1 <= n <= RELAY_COUNT ->
  request_line request =
    Some ("POST", "/api/relay/" +:+ String (digit n) rest) ->
  request_body request = Some body ->
  exists st',
    process sock request st = Some (st', success sock)
    /\ channel st' n = Some (body_state body)
    /\ forall m, 1 <= m <= RELAY_COUNT -> m <> n ->
                 channel st' m = channel st m.
Proof.
  intros [Hlen _] Hn Hline Hbody.
  rewrite (route_post_relay _ _ _ _ _ Hline), Hbody.
  rewrite relay_num_digit by done.
  eexists. split; [reflexivity |]. split.
  - rewrite channel_set_relay_eq by done.
    unfold body_state, ON, OFF. by destruct (_ || _).
  - intros m [Hm _] Hne. by apply channel_set_relay_ne.
Qed.

(** C1. For a channel [n] from 1 to 8, a POST to [/api/relay/<n>] whose
    body, the text behind the first blank line, holds the text
    ["state":1] or ["state": 1] switches channel [n] ON and leaves the
    other channels as they were; when it holds neither of them but holds
    ["state":0] or ["state": 0], channel [n] is switched OFF and the
    other channels are left as they were. Either way the request is
    answered with the success response. *)
Theorem post_relay_sets_channel sock request st n rest body :
  well_formed st ->
  1 <= n <= RELAY_COUNT ->
  request_line request =
    Some ("POST", "/api/relay/" +:+ String (digit n) rest) ->
  request_body request = Some body ->
  (occurs state_on body \/ occurs state_on_sp body ->
   exists st',
     process sock request st = Some (st', success sock)
     /\ channel st' n = Some ON
     /\ forall m, 1 <= m <= RELAY_COUNT -> m <> n ->
                  channel st' m = channel st m)
  /\ (~ (occurs state_on body \/ occurs state_on_sp body) ->
      occurs state_off body \/ occurs state_off_sp body ->
      exists st',
        process sock request st = Some (st', success sock)
        /\ channel st' n = Some OFF
        /\ forall m, 1 <= m <= RELAY_COUNT -> m <> n ->
                     channel st' m = channel st m).
Proof.
  intros Hwf Hn Hline Hbody.
  destruct (post_relay_channel sock request st n rest body)
    as (st' & Hrun & Hch & Hothers); try done.
  split.
  - intros Hon. exists st'. by rewrite <- (body_state_on body Hon).
  - intros Hnon _. exists st'. by rewrite <- (body_state_off body Hnon).
Qed.

(** C7. For a channel [n] from 1 to 8, a POST to [/api/relay/<n>] with a
    body in which none of the four state texts occurs switches channel
    [n] OFF and is answered with the success response: the header with
    status 200, content type [application/json] and content length 16 is
    sent, then the success body. *)
Theorem post_relay_defaults_to_off sock request st n rest body :
  well_formed st ->
  1 <= n <= RELAY_COUNT ->
  request_line request =
    Some ("POST", "/api/relay/" +:+ String (digit n) rest) ->
  request_body request = Some body ->
  ~ occurs state_on body -> ~ occurs state_on_sp body ->
  ~ occurs state_off body -> ~ occurs state_off_sp body ->
  exists st',
    process sock request st =
      Some (st', [Send sock success_header; Send sock success_json])
    /\ channel st' n = Some OFF.
Proof.
  intros Hwf Hn Hline Hbody H1 H2 _ _.
  destruct (post_relay_channel sock request st n rest body)
    as (st' & Hrun & Hch & _); try done.
  exists st'. split; [by rewrite Hrun, success_on_wire |].
  rewrite Hch, body_state_off; [done |]. by intros [? | ?].
Qed.

(** C5. A POST to [/api/relay/<c>] in which the prefix is not followed by
    one of the digits 1 to 8 (the digit 0 or 9, any other character, or
    nothing at all) leaves the board as it was and is still answered with
    the success response, header and body, provided the request holds a
    blank line. *)
Theorem post_relay_out_of_range sock request st tail body :
  request_line request = Some ("POST", "/api/relay/" +:+ tail) ->
  (forall n rest, 1 <= n <= RELAY_COUNT -> tail <> String (digit n) rest) ->
  request_body request = Some body ->
  process sock request st =
    Some (st, [Send sock success_header; Send sock success_json]).
Proof.
  intros Hline Htail Hbody.
  rewrite (route_post_relay _ _ _ _ _ Hline), Hbody.
  rewrite set_relay_out_of_range by by apply relay_num_not_digit.
  by rewrite <- success_on_wire.
Qed.

(** C6. A POST to [/api/relay/<n>] whose bytes hold no blank line
    (CR LF CR LF) leaves the board as it was and sends nothing: neither
    the success response nor an error response. *)
Theorem post_relay_without_blank_line sock request st tail :
  request_line request = Some ("POST", "/api/relay/" +:+ tail) ->
  ~ occurs (CRLF +:+ CRLF) request ->
  process sock request st = Some (st, []).
Proof.
  intros Hline Hno.
  rewrite (route_post_relay _ _ _ _ _ Hline). unfold request_body.
  assert (strstr (c_str request) (CRLF +:+ CRLF) = None) as ->; [| done].
  apply strstr_None. intros Hocc. by apply Hno, occurs_c_str.
Qed.

(** C9. A POST to [/api/relay/<n>] is carried out, and carrying out the
    same request a second time right after leaves the board as the first
    time left it (and sends the same answer). *)
Theorem post_relay_idempotent sock request st tail :
  request_line request = Some ("POST", "/api/relay/" +:+ tail) ->
  exists st1 out,
    process sock request st = Some (st1, out)
    /\ process sock request st1 = Some (st1, out).
Proof.
  intros Hline.
  pose proof (fun b => route_post_relay HTML_PAGE sock request b tail Hline)
    as Hroute.
  destruct (request_body request) as [body|].
  - do 2 eexists. split; [apply Hroute |].
    by rewrite Hroute, set_relay_idem.
  - exists st, []. by rewrite !Hroute.
Qed.

(** The text [get_relays_json] leaves in its 512 characters is the JSON
    object of the interface description. *)
Lemma get_relays_json_spec st :
  well_formed st ->
  get_relays_json st 512 = spec_relays_json (g_relay_states st).
Proof.
  destruct st as [g gp]. intros [Hlen Hall]. simpl in *.
  do 9 (destruct g as [|? g]; try discriminate Hlen). clear Hlen.
  repeat match goal with
         | H : Forall _ (_ :: _) |- _ =>
             apply Forall_cons in H as [?%fmt_d_uint8_length H]
         end.
  unfold get_relays_json, spec_relays_json.
  cbn [g_relay_states imap spec_join lookup_total list_lookup_total].
  cbv [spec_relay_member compose quoted].
  repeat match goal with
         | H : (String.length (fmt_d ?v) <= 3)%nat |- _ =>
             generalize dependent (fmt_d v); intros
         end.
  rewrite snprintf_fits.
  - rewrite !append_assoc. reflexivity.
  - rewrite !length_append. simpl. lia.
Qed.

(** The text of the store has no terminator and at most 193 characters. *)
Lemma relays_json_text st :
  well_formed st ->
  nul_free (spec_relays_json (g_relay_states st))
  /\ (String.length (spec_relays_json (g_relay_states st)) <= 193)%nat.
Proof.
  destruct st as [g gp]. intros [Hlen Hall]. simpl in *.
  do 9 (destruct g as [|? g]; try discriminate Hlen). clear Hlen.
  repeat match goal with
         | H : Forall _ (?v :: _) |- _ =>
             apply Forall_cons in H as [?%fmt_d_uint8_length H];
             pose proof (fmt_d_nul_free v)
         end.
  unfold spec_relays_json. cbn [imap spec_join].
  cbv [spec_relay_member compose quoted].
  repeat match goal with
         | H : (String.length (fmt_d ?v) <= 3)%nat |- _ =>
             generalize dependent (fmt_d v); intros
         end.
  split.
  - rewrite !nul_free_app.
    repeat split; (done || (simpl; repeat split; discriminate)).
  - rewrite !length_append. simpl. lia.
Qed.

(** The answer to a GET of [/api/relays] on the wire. *)
Lemma get_relays_on_wire sock request st :
  well_formed st ->
  request_line request = Some ("GET", "/api/relays") ->
  process sock request st =
    Some (st,
          [Send sock (wire_header "200 OK" "application/json"
                        (String.length
                           (spec_relays_json (g_relay_states st))));
           Send sock (spec_relays_json (g_relay_states st))]).
Proof.
  intros Hwf Hline. destruct (relays_json_text st Hwf) as [Hnul Hlen].
  rewrite (route_get_relays _ _ _ _ Hline), (get_relays_json_spec st Hwf).
  rewrite send_http_response_complete; first done.
  - simpl. repeat split; discriminate.
  - simpl. repeat split; discriminate.
  - done.
  - simpl. lia.
  - lia.
Qed.

(** After the loop over all channels every entry holds the state that
    was asked for, and a GET reports just that. *)
Lemma set_all_then_get sock get st (on : bool) :
  well_formed st ->
  request_line get = Some ("GET", "/api/relays") ->
  let v := if on then ON else OFF in
  let st' := foldl (fun b i => set_relay (uint8 i) (if on then 1 else 0) b)
               st (seqZ 1 RELAY_COUNT) in
  g_relay_states st' = replicate (Z.to_nat RELAY_COUNT) v
  /\ process sock get st' =
       Some (st', [Send sock relays_header;
                   Send sock (spec_relays_json
                                (replicate (Z.to_nat RELAY_COUNT) v))]).
Proof.
  intros [Hlen _] Hget v st'.
  assert (g_relay_states st' = replicate (Z.to_nat RELAY_COUNT) v) as Hst.
  { unfold st', v. rewrite set_all_states by done. by destruct on. }
  split; [done |].
  assert (well_formed st') as Hwf'.
  { split; rewrite Hst; [done |].
    unfold v, ON, OFF. destruct on; simpl; repeat constructor; lia. }
  rewrite (get_relays_on_wire sock get st' Hwf' Hget), Hst.
  unfold v. by destruct on.
Qed.

(** C2. Whatever requests were handled before and whatever the store
    holds after them, a GET of [/api/relays] is answered with two calls of
    [send]: the header with status 200, content type [application/json]
    and the length of the body, then the body, which is the JSON object
    with the members [relay_1] to [relay_8] in channel order, each holding
    the stored state of its channel; the board is left as it was. *)
Theorem get_relays_reports_store sock history request st0 st out :
  well_formed st0 ->
  serve HTML_PAGE sock history st0 = Some (st, out) ->
  request_line request = Some ("GET", "/api/relays") ->
  let body := spec_relays_json (g_relay_states st) in
  process sock request st =
    Some (st,
          [Send sock
             ("HTTP/1.1 200 OK" +:+ CRLF
                +:+ "Content-Type: application/json" +:+ CRLF
                +:+ "Content-Length: "
                +:+ fmt_d (Z.of_nat (String.length body)) +:+ CRLF
                +:+ "Connection: close" +:+ CRLF +:+ CRLF);
           Send sock body]).
Proof.
  intros Hwf0 Hhist Hline body.
  assert (well_formed st) as Hwf.
  { apply (serve_preserves HTML_PAGE well_formed sock history st0 st out);
      [| done | done].
    intros n state b. apply set_relay_well_formed. }
  by rewrite (get_relays_on_wire sock request st Hwf Hline).
Qed.

(** C3. Whatever the store held, a POST to [/api/relays/all/on] switches
    all eight channels ON and is answered with the success response,
    header and body, and a GET of [/api/relays] right after is answered
    with the header for 177 characters and a body that reports every
    channel with state 1; a POST to [/api/relays/all/off] does the same
    with OFF and 0. *)
Theorem post_all_on_and_off sock request st :
  well_formed st ->
  (request_line request = Some ("POST", "/api/relays/all/on") ->
   exists st',
     process sock request st =
       Some (st', [Send sock success_header; Send sock success_json])
     /\ g_relay_states st' = replicate (Z.to_nat RELAY_COUNT) ON
     /\ forall sock' get,
          request_line get = Some ("GET", "/api/relays") ->
          process sock' get st' =
            Some (st', [Send sock' relays_header;
                        Send sock' (spec_relays_json
                                      (replicate (Z.to_nat RELAY_COUNT) ON))]))
  /\ (request_line request = Some ("POST", "/api/relays/all/off") ->
      exists st',
        process sock request st =
          Some (st', [Send sock success_header; Send sock success_json])
        /\ g_relay_states st' = replicate (Z.to_nat RELAY_COUNT) OFF
        /\ forall sock' get,
             request_line get = Some ("GET", "/api/relays") ->
             process sock' get st' =
               Some (st', [Send sock' relays_header;
                           Send sock' (spec_relays_json
                                         (replicate (Z.to_nat RELAY_COUNT)
                                            OFF))])).
Proof.
  intros Hwf. split; intros Hline.
  - rewrite (route_all _ _ _ _ true Hline).
    eexists. split; [by rewrite <- success_on_wire |]. split.
    + by apply (set_all_states 1), Hwf.
    + intros sock' get Hget. by apply (set_all_then_get sock' get st true).
  - rewrite (route_all _ _ _ _ false Hline).
    eexists. split; [by rewrite <- success_on_wire |]. split.
    + by apply (set_all_states 0), Hwf.
    + intros sock' get Hget. by apply (set_all_then_get sock' get st false).
Qed.

(** A request in wire form is read as it was meant. *)
Lemma relay_request_parsed n body :
  1 <= n <= RELAY_COUNT ->
  request_line (relay_request n body) =
    Some ("POST", "/api/relay/" +:+ String (digit n) EmptyString)
  /\ request_body (relay_request n body) = Some (c_str body).
Proof.
  unfold RELAY_COUNT. intros Hn.
  assert (n = 1 \/ n = 2 \/ n = 3 \/ n = 4 \/ n = 5 \/ n = 6 \/ n = 7
          \/ n = 8) as Hcases by lia.
  repeat (destruct Hcases as [-> | Hcases]; [split; reflexivity |]).
  subst n. split; reflexivity.
Qed.

(** C8, as the code has it. The texts the router searches for begin with
    the double quote that opens the member name. For a channel [n] from 1
    to 8 and a POST to [/api/relay/<n>] with a body: when neither ON text
    occurs in the body, quote and all, channel [n] is switched OFF, and so
    it is for the body whose only member is [other_state] with value 1,
    which holds the letters of the text but not its quote; when an ON text
    occurs anywhere in the body, channel [n] is switched ON, and so it is
    for the body whose only member has a name made of [my], an escaped
    double quote and [state], where the text is the tail of a longer name.
    Either way the success response is sent. *)
Theorem state_text_match_needs_quote sock request st n rest body :
  well_formed st ->
  1 <= n <= RELAY_COUNT ->
  request_line request =
    Some ("POST", "/api/relay/" +:+ String (digit n) rest) ->
  request_body request = Some body ->
  (~ occurs state_on other_state_body /\ ~ occurs state_on_sp other_state_body
   /\ occurs state_on escaped_key_body)
  /\ (~ occurs state_on body -> ~ occurs state_on_sp body ->
      exists st',
        process sock request st =
          Some (st', [Send sock success_header; Send sock success_json])
        /\ channel st' n = Some OFF)
  /\ (occurs state_on body \/ occurs state_on_sp body ->
      exists st',
        process sock request st =
          Some (st', [Send sock success_header; Send sock success_json])
        /\ channel st' n = Some ON)
  /\ (body = other_state_body ->
      exists st',
        process sock request st =
          Some (st', [Send sock success_header; Send sock success_json])
        /\ channel st' n = Some OFF)
  /\ (body = escaped_key_body ->
      exists st',
        process sock request st =
          Some (st', [Send sock success_header; Send sock success_json])
        /\ channel st' n = Some ON).
Proof.
  intros Hwf Hn Hline Hbody.
  destruct (post_relay_channel sock request st n rest body)
    as (st' & Hrun & Hch & _); try done.
  rewrite success_on_wire in Hrun.
  assert (~ occurs state_on other_state_body) as Ho1
    by by apply strstr_None.
  assert (~ occurs state_on_sp other_state_body) as Ho2
    by by apply strstr_None.
  assert (occurs state_on escaped_key_body) as He
    by by apply strstr_found.
  assert (~ occurs state_on body -> ~ occurs state_on_sp body ->
          exists st',
            process sock request st =
              Some (st', [Send sock success_header; Send sock success_json])
            /\ channel st' n = Some OFF) as Hoff.
  { intros H1 H2. exists st'. split; [done |].
    rewrite Hch, body_state_off; [done |]. by intros [? | ?]. }
  assert (occurs state_on body \/ occurs state_on_sp body ->
          exists st',
            process sock request st =
              Some (st', [Send sock success_header; Send sock success_json])
            /\ channel st' n = Some ON) as Hon.
  { intros H. exists st'. split; [done |]. by rewrite Hch, body_state_on. }
  split; [done |]. split; [done |]. split; [done |]. split.
  - intros ->. by apply Hoff.
  - intros ->. apply Hon. by left.
Qed.

(** C4, at a request with another method. A PUT request has no route; the
    router leaves the board as it was, but it sends nothing at all, where
    a GET or a POST without a route is answered with 404. *)
Theorem put_request_is_not_answered sock st :
  let request := "PUT /foo HTTP/1.1" +:+ CRLF +:+ CRLF in
  request_line request = Some ("PUT", "/foo")
  /\ process sock request st = Some (st, [])
  /\ process sock request st <> Some (st, not_found sock).
Proof.
  intros request.
  assert (request_line request = Some ("PUT", "/foo")) as Hline
    by reflexivity.
  assert (process sock request st = Some (st, [])) as Hrun
    by by apply (route_other_method _ _ _ _ _ _ Hline).
  by rewrite Hrun.
Qed.

(** The part of C4 that the code keeps: a GET or a POST whose path has no
    route is answered with 404 and leaves the board as it was. *)
Lemma unrouted_path_not_found sock request st method uri :
  request_line request = Some (method, uri) ->
  (method = "GET" /\ uri <> "/" /\ uri <> "/index.html"
     /\ uri <> "/api/relays")
  \/ (method = "POST" /\ (forall tail, uri <> "/api/relay/" +:+ tail)
        /\ uri <> "/api/relays/all/on" /\ uri <> "/api/relays/all/off") ->
  process sock request st = Some (st, not_found sock).
Proof.
  intros Hline [(-> & H1 & H2 & H3) | (-> & H1 & H2 & H3)].
  - by apply route_get_not_found with uri.
  - by apply route_post_not_found with uri.
Qed.

(** Every sequence of requests the router handles keeps the store at eight
    entries, each 0 or 1. *)
Lemma serve_inv sock (requests : list string) st :
  relay_inv st ->
  Forall (fun r => is_Some (request_line r)) requests ->
  exists st' out,
    serve HTML_PAGE sock requests st = Some (st', out) /\ relay_inv st'.
Proof.
  intros Hinv Hall.
  destruct (serve_defined HTML_PAGE sock requests st Hall) as [[st' out] Hrun].
  exists st', out. split; [done |].
  apply (serve_preserves HTML_PAGE relay_inv sock requests st st' out);
    [| done | done].
  intros n state b. apply set_relay_inv.
Qed.

(** C10, at a request with a long method. The first token of the request
    has 16 characters: [sscanf] stores it and its terminator in the 16
    characters of [method], one past the end, so nothing is defined about
    the store afterwards, neither for this request nor for a sequence of
    requests that holds it. With one character less the request is
    handled. *)
Theorem long_method_overruns_buffer sock st :
  String.length long_method = 16%nat
  /\ request_line long_method_request = None
  /\ process sock long_method_request st = None
  /\ serve HTML_PAGE sock
       [plain_request "GET" "/api/relays"; long_method_request] st = None
  /\ process sock (plain_request "AAAAAAAAAAAAAAA" "/") st = Some (st, []).
Proof.
  split; [reflexivity |]. split; [reflexivity |].
  assert (process sock long_method_request st = None) as Hrun
    by by apply process_undefined.
  split; [done |]. split.
  - unfold serve.
    destruct (process sock (plain_request "GET" "/api/relays") st)
      as [[st1 out1]|]; [| reflexivity].
    cbv beta iota delta [mbind option_bind].
    by rewrite (process_undefined HTML_PAGE sock long_method_request st1).
  - by apply (route_other_method HTML_PAGE sock _ st "AAAAAAAAAAAAAAA" "/").
Qed.

(** X18. The store has eight entries, each 0 or 1: this holds when the
    program starts and after [relay_init], which sets every entry to OFF;
    [set_relay] keeps it for any arguments, writing 1 for every state
    other than 0 and nothing for a channel outside 1 to 8; and every
    sequence of requests whose request lines fit [method] and [uri] is
    handled and leaves a store of eight entries, each 0 or 1. *)
Theorem relay_store_invariant sock (requests : list string) st :
  relay_inv st ->
  Forall (fun r => is_Some (request_line r)) requests ->
  relay_inv power_on
  /\ g_relay_states (relay_init st) = replicate (Z.to_nat RELAY_COUNT) OFF
  /\ relay_inv (relay_init st)
  /\ (forall n state, relay_inv (set_relay n state st))
  /\ (forall n state, 1 <= n <= RELAY_COUNT -> state <> 0 ->
                      channel (set_relay n state st) n = Some ON)
  /\ (forall n state, ~ (1 <= n <= RELAY_COUNT) -> set_relay n state st = st)
  /\ exists st' out,
       serve HTML_PAGE sock requests st = Some (st', out) /\ relay_inv st'.
Proof.
  intros Hinv Hall.
  assert (relay_inv power_on) as Hpower
    by (split; [done | repeat constructor]).
  pose proof (relay_init_states st (proj1 Hinv)) as Hinit.
  refine (conj Hpower (conj Hinit (conj _ (conj _ (conj _ (conj _ _)))))).
  - split; rewrite Hinit; [done | repeat constructor].
  - intros n state. by apply set_relay_inv.
  - intros n state Hn Hs. rewrite channel_set_relay_eq by (done || apply Hinv).
    by rewrite (proj2 (Z.eqb_neq _ _) Hs).
  - intros n state Hn. by apply set_relay_out_of_range.
  - by apply serve_inv.
Qed.

End Properties.

(** ** The properties at sample requests *)

Lemma power_on_well_formed : well_formed power_on.
Proof.
  split; [reflexivity |]. simpl.
  repeat (apply Forall_cons_2; [lia |]). apply Forall_nil_2.
Defined.

Lemma all_on_well_formed : well_formed all_on.
Proof.
  split; [reflexivity |]. simpl. unfold ON.
  repeat (apply Forall_cons_2; [lia |]). apply Forall_nil_2.
Defined.

Lemma power_on_inv : relay_inv power_on.
Proof.
  split; [reflexivity |]. simpl.
  repeat (apply Forall_cons_2; [left; reflexivity |]). apply Forall_nil_2.
Defined.

Lemma post_relay_sets_channel_witness :
  (exists st',
     process_http_request sample_page 0 (relay_request 3 body_on_sp) power_on
       = Some (st', success 0)
     /\ channel st' 3 = Some ON
     /\ forall m, 1 <= m <= RELAY_COUNT -> m <> 3 ->
                  channel st' m = channel power_on m)
  /\ (exists st',
        process_http_request sample_page 0 (relay_request 3 body_off) all_on
          = Some (st', success 0)
        /\ channel st' 3 = Some OFF
        /\ forall m, 1 <= m <= RELAY_COUNT -> m <> 3 ->
                     channel st' m = channel all_on m).
Proof.
  split.
  - apply (post_relay_sets_channel sample_page 0 (relay_request 3 body_on_sp)
             power_on 3 EmptyString body_on_sp).
    + exact power_on_well_formed.
    + unfold RELAY_COUNT. lia.
    + reflexivity.
    + reflexivity.
    + right. exists "{", "}". reflexivity.
  - apply (post_relay_sets_channel sample_page 0 (relay_request 3 body_off)
             all_on 3 EmptyString body_off).
    + exact all_on_well_formed.
    + unfold RELAY_COUNT. lia.
    + reflexivity.
    + reflexivity.
    + intros [H | H]; apply strstr_found in H; discriminate H.
    + left. exists "{", "}". reflexivity.
Defined.

Lemma get_relays_reports_store_witness :
  let history :=
    [relay_request 2 body_on; plain_request "POST" "/api/relays/all/on";
     relay_request 7 body_off] in
  exists st out,
    serve sample_page 0 history power_on = Some (st, out)
    /\ g_relay_states st = [1; 1; 1; 1; 1; 1; 0; 1]
    /\ process_http_request sample_page 0
         (plain_request "GET" "/api/relays") st
       = Some (st,
               [Send 0 relays_header;
                Send 0 (spec_relays_json [1; 1; 1; 1; 1; 1; 0; 1])]).
Proof.
  intros history. eexists. eexists.
  split; [vm_compute; reflexivity |]. split; [reflexivity |].
  eapply (get_relays_reports_store sample_page 0 history
            (plain_request "GET" "/api/relays") power_on).
  - exact power_on_well_formed.
  - vm_compute. reflexivity.
  - reflexivity.
Defined.

Lemma post_all_on_and_off_witness :
  exists st',
    process_http_request sample_page 0
      (plain_request "POST" "/api/relays/all/on") power_on
      = Some (st', [Send 0 success_header; Send 0 success_json])
    /\ g_relay_states st' = replicate (Z.to_nat RELAY_COUNT) ON
    /\ forall sock' get,
         request_line get = Some ("GET", "/api/relays") ->
         process_http_request sample_page sock' get st' =
           Some (st', [Send sock' relays_header;
                       Send sock' (spec_relays_json
                                     (replicate (Z.to_nat RELAY_COUNT) ON))]).
Proof.
  apply (post_all_on_and_off sample_page 0
           (plain_request "POST" "/api/relays/all/on") power_on).
  - exact power_on_well_formed.
  - reflexivity.
Defined.

Lemma post_relay_out_of_range_witness :
  request_line (relay_request 9 body_on)
    = Some ("POST", "/api/relay/" +:+ "9")
  /\ request_body (relay_request 9 body_on) = Some body_on
  /\ process_http_request sample_page 0 (relay_request 9 body_on) power_on
     = Some (power_on, [Send 0 success_header; Send 0 success_json]).
Proof.
  split; [reflexivity |]. split; [reflexivity |].
  apply (post_relay_out_of_range sample_page 0 (relay_request 9 body_on)
           power_on "9" body_on).
  - reflexivity.
  - intros n rest Hn Heq. injection Heq as Hc _.
    apply (f_equal code) in Hc. unfold RELAY_COUNT in Hn.
    assert (n = 1 \/ n = 2 \/ n = 3 \/ n = 4 \/ n = 5 \/ n = 6 \/ n = 7
            \/ n = 8) as Hcases by lia.
    repeat (destruct Hcases as [-> | Hcases]; [discriminate Hc |]).
    subst n. discriminate Hc.
  - reflexivity.
Defined.

Lemma post_relay_without_blank_line_witness :
  ~ occurs (CRLF +:+ CRLF) ("POST /api/relay/3 HTTP/1.1" +:+ CRLF)
  /\ process_http_request sample_page 0
       ("POST /api/relay/3 HTTP/1.1" +:+ CRLF) all_on
     = Some (all_on, []).
Proof.
  assert (~ occurs (CRLF +:+ CRLF) ("POST /api/relay/3 HTTP/1.1" +:+ CRLF))
    as Hno by (apply strstr_None; reflexivity).
  split; [exact Hno |].
  apply (post_relay_without_blank_line sample_page 0
           ("POST /api/relay/3 HTTP/1.1" +:+ CRLF) all_on "3").
  - reflexivity.
  - exact Hno.
Defined.

Lemma post_relay_defaults_to_off_witness :
  exists st',
    process_http_request sample_page 0 (relay_request 5 body_toggle) all_on
      = Some (st', [Send 0 success_header; Send 0 success_json])
    /\ channel st' 5 = Some OFF.
Proof.
  apply (post_relay_defaults_to_off sample_page 0
           (relay_request 5 body_toggle) all_on 5 EmptyString body_toggle).
  - exact all_on_well_formed.
  - unfold RELAY_COUNT. lia.
  - reflexivity.
  - reflexivity.
  - apply strstr_None. reflexivity.
  - apply strstr_None. reflexivity.
  - apply strstr_None. reflexivity.
  - apply strstr_None. reflexivity.
Defined.

(** C8 as it was written fails at its own example: the body with the
    member [other_state] does not switch a relay ON. From a store with
    every channel ON, channel 3 does not stay ON. *)
Lemma other_state_is_not_on :
  ~ exists st' out,
      process_http_request sample_page 0 (relay_request 3 other_state_body)
        all_on = Some (st', out)
      /\ channel st' 3 = Some ON.
Proof.
  intros (st' & out & Hrun & Hch).
  destruct (post_relay_channel sample_page 0
              (relay_request 3 other_state_body) all_on 3 EmptyString
              other_state_body)
    as (st1 & Hrun1 & Hch1 & _);
    [exact all_on_well_formed | unfold RELAY_COUNT; lia | reflexivity
    | reflexivity |].
  rewrite Hrun1 in Hrun. injection Hrun as <- _.
  rewrite Hch in Hch1. discriminate Hch1.
Qed.

Lemma state_text_match_needs_quote_witness :
  (~ occurs state_on other_state_body /\ ~ occurs state_on_sp other_state_body
   /\ occurs state_on escaped_key_body)
  /\ (exists st',
        process_http_request sample_page 0
          (relay_request 3 other_state_body) all_on
          = Some (st', [Send 0 success_header; Send 0 success_json])
        /\ channel st' 3 = Some OFF)
  /\ (exists st',
        process_http_request sample_page 0
          (relay_request 3 escaped_key_body) power_on
          = Some (st', [Send 0 success_header; Send 0 success_json])
        /\ channel st' 3 = Some ON).
Proof.
  split; [| split].
  - apply (state_text_match_needs_quote sample_page 0
             (relay_request 3 other_state_body) all_on 3 EmptyString
             other_state_body);
      [exact all_on_well_formed | unfold RELAY_COUNT; lia | reflexivity
      | reflexivity].
  - apply (state_text_match_needs_quote sample_page 0
             (relay_request 3 other_state_body) all_on 3 EmptyString
             other_state_body);
      [exact all_on_well_formed | unfold RELAY_COUNT; lia | reflexivity
      | reflexivity | reflexivity].
  - apply (state_text_match_needs_quote sample_page 0
             (relay_request 3 escaped_key_body) power_on 3 EmptyString
             escaped_key_body);
      [exact power_on_well_formed | unfold RELAY_COUNT; lia | reflexivity
      | reflexivity | reflexivity].
Defined.

Lemma post_relay_idempotent_witness :
  request_line (relay_request 3 body_on)
    = Some ("POST", "/api/relay/" +:+ "3")
  /\ exists st1 out,
       process_http_request sample_page 0 (relay_request 3 body_on) power_on
         = Some (st1, out)
       /\ process_http_request sample_page 0 (relay_request 3 body_on) st1
          = Some (st1, out).
Proof.
  split; [reflexivity |].
  apply (post_relay_idempotent sample_page 0 (relay_request 3 body_on)
           power_on "3").
  reflexivity.
Defined.

(** The sequence of the test plan: relay 1 ON, read, all OFF, read. *)
Lemma relay_store_invariant_witness :
  let requests :=
    [relay_request 1 body_on; plain_request "GET" "/api/relays";
     plain_request "POST" "/api/relays/all/off";
     plain_request "GET" "/api/relays"] in
  relay_inv power_on
  /\ g_relay_states (relay_init power_on)
     = replicate (Z.to_nat RELAY_COUNT) OFF
  /\ relay_inv (relay_init power_on)
  /\ (forall n state, relay_inv (set_relay n state power_on))
  /\ (forall n state, 1 <= n <= RELAY_COUNT -> state <> 0 ->
                      channel (set_relay n state power_on) n = Some ON)
  /\ (forall n state, ~ (1 <= n <= RELAY_COUNT) ->
                      set_relay n state power_on = power_on)
  /\ exists st' out,
       serve sample_page 0 requests power_on = Some (st', out)
       /\ relay_inv st'.
Proof.
  intros requests.
  apply (relay_store_invariant sample_page 0 requests power_on).
  - exact power_on_inv.
  - unfold requests.
    repeat (apply Forall_cons_2; [eexists; reflexivity |]). apply Forall_nil_2.
Defined.

(** ** The relay pins *)

Section Pins.

Implicit Types (st : board) (n state pin : Z).

Lemma relay_pins_lookup i pin :
  relay_pins !! i = Some pin <-> (i < 8)%nat /\ pin = RELAY_CH1 + Z.of_nat i.
Proof.
  split.
  - intros H.
    do 8 (destruct i as [|i];
          [injection H as <-; split; [lia | reflexivity] |]).
    done.
  - intros [Hi ->]. do 8 (destruct i as [|i]; [done |]). lia.
Qed.

Lemma relay_pins_total i :
  (i < 8)%nat -> relay_pins !!! i = RELAY_CH1 + Z.of_nat i.
Proof.
  intros Hi. apply list_lookup_total_correct, relay_pins_lookup. done.
Qed.

Lemma relay_init_gpio st :
  gpio_out (relay_init st) =
    <[RELAY_CH8 := false]> (<[RELAY_CH7 := false]> (<[RELAY_CH6 := false]>
    (<[RELAY_CH5 := false]> (<[RELAY_CH4 := false]> (<[RELAY_CH3 := false]>
    (<[RELAY_CH2 := false]> (<[RELAY_CH1 := false]> (gpio_out st)))))))).
Proof. reflexivity. Qed.

Lemma relay_init_low st pin :
  pin ∈ relay_pins -> gpio_out (relay_init st) !! pin = Some false.
Proof.
  intros Hin. rewrite relay_init_gpio.
  apply list_elem_of_lookup in Hin as [i Hi].
  apply relay_pins_lookup in Hi as [Hi ->].
  do 8 (destruct i as [|i]; [by simplify_map_eq |]). lia.
Qed.

Lemma relay_init_pins_follow st :
  length (g_relay_states st) = Z.to_nat RELAY_COUNT ->
  pins_follow (relay_init st).
Proof.
  intros Hlen i pin v Hpin Hv. rewrite (relay_init_states st Hlen) in Hv.
  apply lookup_replicate in Hv as [-> _].
  apply relay_init_low, list_elem_of_lookup. by exists i.
Qed.

(** X1. [relay_init] on a store of eight entries sets every entry to OFF
    and drives each of the eight relay pins low; no other pin is touched,
    and so every relay pin follows its entry. *)
Theorem relay_init_resets st :
  length (g_relay_states st) = Z.to_nat RELAY_COUNT ->
  g_relay_states (relay_init st) = replicate (Z.to_nat RELAY_COUNT) OFF
  /\ (forall pin, pin ∈ relay_pins ->
                  gpio_out (relay_init st) !! pin = Some false)
  /\ (forall pin, pin ∉ relay_pins ->
                  gpio_out (relay_init st) !! pin = gpio_out st !! pin)
  /\ pins_follow (relay_init st).
Proof.
  intros Hlen. split; [by apply relay_init_states |].
  split; [apply relay_init_low |]. split; [| by apply relay_init_pins_follow].
  intros pin Hnot. rewrite relay_init_gpio.
  assert (forall i, (i < 8)%nat -> pin <> RELAY_CH1 + Z.of_nat i) as Hne.
  { intros i Hi ->. apply Hnot, list_elem_of_lookup. exists i.
    by apply relay_pins_lookup. }
  pose proof (Hne 0%nat) as H0. pose proof (Hne 1%nat) as H1.
  pose proof (Hne 2%nat) as H2. pose proof (Hne 3%nat) as H3.
  pose proof (Hne 4%nat) as H4. pose proof (Hne 5%nat) as H5.
  pose proof (Hne 6%nat) as H6. pose proof (Hne 7%nat) as H7.
  unfold RELAY_CH1, RELAY_CH2, RELAY_CH3, RELAY_CH4, RELAY_CH5, RELAY_CH6,
    RELAY_CH7, RELAY_CH8 in *.
  rewrite !lookup_insert_ne by lia. done.
Qed.

Lemma set_relay_pins_follow n state st :
  length (g_relay_states st) = Z.to_nat RELAY_COUNT ->
  pins_follow st -> pins_follow (set_relay n state st).
Proof.
  intros Hlen Hfollow. unfold set_relay.
  destruct (_ && _) eqn:E; [| done].
  apply andb_true_iff in E as [E1 E2]. apply Z.leb_le in E1, E2.
  unfold RELAY_COUNT in *.
  intros i pin v Hpin Hv. simpl in *.
  apply relay_pins_lookup in Hpin as [Hi ->].
  rewrite relay_pins_total by lia.
  destruct (decide (i = Z.to_nat (n - 1))) as [-> | Hne].
  - rewrite list_lookup_insert_eq in Hv by lia. injection Hv as <-.
    rewrite lookup_insert_eq. by destruct (state =? 0).
  - rewrite list_lookup_insert_ne in Hv by done.
    rewrite lookup_insert_ne by lia.
    apply (Hfollow i); [| done]. by apply relay_pins_lookup.
Qed.

(** X3. Of two calls of [set_relay] for one channel the later one decides,
    and calls for different channels can be swapped. *)
Theorem set_relay_compose n m s t st :
  set_relay n t (set_relay n s st) = set_relay n t st
  /\ (n <> m ->
      set_relay n s (set_relay m t st) = set_relay m t (set_relay n s st)).
Proof.
  unfold set_relay. split.
  - destruct (_ && _) eqn:E; simpl; [| done].
    by rewrite list_insert_insert_eq, insert_insert_eq.
  - intros Hne.
    destruct ((1 <=? n) && (n <=? RELAY_COUNT)) eqn:En;
      destruct ((1 <=? m) && (m <=? RELAY_COUNT)) eqn:Em; simpl; try done.
    apply andb_true_iff in En as [En1 En2], Em as [Em1 Em2].
    apply Z.leb_le in En1, En2, Em1, Em2. unfold RELAY_COUNT in *.
    rewrite !relay_pins_total by lia. f_equal.
    + apply list_insert_insert_ne. lia.
    + apply insert_insert_ne. unfold RELAY_CH1. lia.
Qed.

End Pins.

(** ** The pins under the router *)

Section PinsRouter.

Variable HTML_PAGE : string.

Lemma set_relay_wired n state st : wired st -> wired (set_relay n state st).
Proof.
  intros [Hlen Hfollow]. split.
  - by rewrite set_relay_length.
  - by apply set_relay_pins_follow.
Qed.

(** X2. On a board of eight entries whose relay pins follow the entries,
    every request whose request line fits [method] and [uri] is handled,
    and afterwards the store still has eight entries and the pins follow
    them. *)
Theorem router_keeps_pins sock request st :
  length (g_relay_states st) = Z.to_nat RELAY_COUNT ->
  pins_follow st ->
  is_Some (request_line request) ->
  exists st' out,
    process_http_request HTML_PAGE sock request st = Some (st', out)
    /\ length (g_relay_states st') = Z.to_nat RELAY_COUNT
    /\ pins_follow st'.
Proof.
  intros Hlen Hfollow Hline.
  destruct (process_defined HTML_PAGE sock request st Hline)
    as [[st' out] Hrun].
  exists st', out. split; [done |].
  apply (process_preserves HTML_PAGE wired sock request st st' out);
    [| done | done].
  intros n state b. apply set_relay_wired.
Qed.

End PinsRouter.

(** ** The request line *)

Section RequestLine.

Implicit Types (s tok rest method uri : string).

Lemma c_str_app a b : nul_free a -> c_str (a +:+ b) = a +:+ c_str b.
Proof.
  induction a as [|c a IH]; simpl; [done |]. intros [Hc Ha].
  destruct (Ascii.eqb c "000") eqn:E.
  - apply Ascii.eqb_eq in E. subst c. by destruct Hc.
  - by rewrite IH.
Qed.

Lemma skip_space_token tok rest :
  tok <> EmptyString -> no_space tok -> skip_space (tok +:+ rest) = tok +:+ rest.
Proof.
  destruct tok as [|c tok]; [done |]. intros _ [Hc _]. simpl. by rewrite Hc.
Qed.

Lemma scan_token_app tok sp rest :
  no_space tok -> isspace sp = true ->
  scan_token (tok +:+ String sp rest) = (tok, String sp rest).
Proof.
  intros Htok Hsp. induction tok as [|c tok IH]; simpl.
  - by rewrite Hsp.
  - destruct Htok as [Hc Htok]. by rewrite Hc, IH.
Qed.

Lemma scan_token_no_space s : no_space (scan_token s).1.
Proof.
  induction s as [|c s IH]; simpl; [done |].
  destruct (isspace c) eqn:E; simpl; [done |].
  by destruct (scan_token s) as [tok rem].
Qed.

Lemma scan_token_nonempty c s :
  isspace c = false -> (scan_token (String c s)).1 <> EmptyString.
Proof.
  intros Hc. simpl. rewrite Hc. by destruct (scan_token s).
Qed.

Lemma skip_space_head s c rest :
  skip_space s = String c rest -> isspace c = false.
Proof.
  induction s as [|x s IH]; simpl; [done |].
  destruct (isspace x) eqn:E; [done |]. by intros [= <- _].
Qed.

(** X4. A request that starts with a method token, a space, a path token
    and a space is read as just that method and that path when the method
    has fewer than 16 and the path fewer than 128 characters, whatever
    follows; a longer token overruns its buffer and nothing is defined. *)
Theorem request_line_round_trip method uri rest :
  token method -> token uri ->
  request_line (request_text method uri rest) =
    if (String.length method <? 16)%nat && (String.length uri <? 128)%nat
    then Some (method, uri) else None.
Proof.
  intros (Hm0 & Hms & Hmn) (Hu0 & Hus & Hun).
  unfold request_line, request_text.
  rewrite (c_str_app method) by done.
  change (c_str (" " +:+ uri +:+ " " +:+ rest))
    with (String " " (c_str (uri +:+ " " +:+ rest))).
  rewrite (c_str_app uri) by done.
  change (c_str (" " +:+ rest)) with (String " " (c_str rest)).
  unfold sscanf_s_s. rewrite skip_space_token by done.
  destruct method as [|c method]; [done |].
  change (String c method +:+ String " " (uri +:+ String " " (c_str rest)))
    with (String c (method +:+ String " " (uri +:+ String " " (c_str rest)))).
  cbv beta iota zeta.
  change (String c (method +:+ String " " (uri +:+ String " " (c_str rest))))
    with (String c method +:+ String " " (uri +:+ String " " (c_str rest))).
  rewrite scan_token_app by done.
  rewrite (Nat.ltb_antisym 16 (String.length (String c method))).
  destruct (16 <=? String.length (String c method))%nat; [done |].
  change (skip_space (String " " (uri +:+ String " " (c_str rest))))
    with (skip_space (uri +:+ String " " (c_str rest))).
  rewrite skip_space_token by done.
  destruct uri as [|d uri]; [done |].
  change (String d uri +:+ String " " (c_str rest))
    with (String d (uri +:+ String " " (c_str rest))).
  cbv beta iota zeta.
  change (String d (uri +:+ String " " (c_str rest)))
    with (String d uri +:+ String " " (c_str rest)).
  rewrite scan_token_app by done.
  rewrite (Nat.ltb_antisym 128 (String.length (String d uri))).
  by destruct (128 <=? String.length (String d uri))%nat.
Qed.

(** X5. When [sscanf] reads the request line without overrunning a buffer,
    the two tokens the router works with hold no white space and no
    terminator, and the path is empty whenever the method is. *)
Theorem request_line_tokens request method uri :
  request_line request = Some (method, uri) ->
  no_space method /\ no_space uri
  /\ nul_free method /\ nul_free uri
  /\ (method = EmptyString -> uri = EmptyString).
Proof.
  intros Hline.
  destruct (sscanf_nul_free _ _ _ _ _ (c_str_nul_free request) Hline)
    as [Hmn Hun].
  revert Hline. unfold request_line, sscanf_s_s.
  destruct (skip_space (c_str request)) as [|c1 s1] eqn:E1.
  { intros [= <- <-]. simpl. repeat split; done. }
  pose proof (scan_token_no_space (String c1 s1)) as Hns1.
  pose proof (scan_token_nonempty c1 s1 (skip_space_head _ _ _ E1)) as Hne1.
  destruct (scan_token (String c1 s1)) as [tok rem]. simpl in Hns1, Hne1.
  destruct (16 <=? String.length tok)%nat eqn:L1; [done |].
  destruct (skip_space rem) as [|c2 s2] eqn:E2.
  { intros [= <- <-]. simpl. repeat split; done. }
  pose proof (scan_token_no_space (String c2 s2)) as Hns2.
  destruct (scan_token (String c2 s2)) as [tok2 rem2]. simpl in Hns2.
  destruct (128 <=? String.length tok2)%nat eqn:L2; [done |].
  intros [= <- <-]. repeat split; done.
Qed.

End RequestLine.

(** ** More of the router *)

Section RouterMore.

Variable HTML_PAGE : string.
Implicit Types (st : board) (sock : Z) (request method uri rest : string).

Abbreviation process := (process_http_request HTML_PAGE).

(** Every call of [send] is on the socket the router was given. *)
Lemma process_sends_sock sock request st st' out :
  process sock request st = Some (st', out) ->
  forall sk data, Send sk data ∈ out -> sk = sock.
Proof.
  unfold process_http_request.
  destruct (sscanf_s_s (c_str request) 16 128) as [[method uri]|]; [| done].
  repeat match goal with
         | |- context [if ?b then _ else _] => destruct b
         | |- context [match ?o with Some _ => _ | None => _ end] =>
             destruct o
         end;
    intros [= <- <-] sk data Hin;
    first [ by apply elem_of_nil in Hin
          | by apply send_http_response_sock in Hin ].
Qed.

(** X6. A request whose request line fits [method] and [uri] and whose
    first token is neither [GET] nor [POST], be it another method, a
    method in small letters or no token at all, is not answered and leaves
    the board as it was. *)
Theorem other_method_is_silent sock request st method uri :
  request_line request = Some (method, uri) ->
  method <> "GET" -> method <> "POST" ->
  process sock request st = Some (st, []).
Proof.
  intros Hline Hget Hpost.
  destruct (request_line_nul_free _ _ _ Hline) as [Hm _].
  unfold request_line in Hline. unfold process_http_request. rewrite Hline.
  assert (nul_free "GET" /\ nul_free "POST") as [Hg Hp]
    by (simpl; repeat split; done).
  by rewrite (strcmp_test_false method "GET"),
       (strcmp_test_false method "POST").
Qed.

(** X7. A [GET] or a [POST] whose request line fits [method] and [uri] and
    whose path has no route is answered with the 404 header, status 404
    Not Found, content type [text/plain] and content length 9, and then
    the body [Not Found]; the board is left as it was. *)
Theorem unrouted_path_gets_404 sock request st method uri :
  request_line request = Some (method, uri) ->
  (method = "GET" /\ uri <> "/" /\ uri <> "/index.html"
     /\ uri <> "/api/relays")
  \/ (method = "POST" /\ (forall tail, uri <> "/api/relay/" +:+ tail)
        /\ uri <> "/api/relays/all/on" /\ uri <> "/api/relays/all/off") ->
  process sock request st =
    Some (st, [Send sock not_found_header; Send sock "Not Found"]).
Proof.
  intros Hline Hroute. rewrite <- not_found_on_wire.
  destruct Hroute as [(-> & H1 & H2 & H3) | (-> & H1 & H2 & H3)].
  - by apply route_get_not_found with uri.
  - by apply route_post_not_found with uri.
Qed.

(** X8. When the page holds no terminator and has fewer than 65536
    characters, a request that starts with [GET / ] or [GET /index.html ]
    is answered, whatever follows the path, with the header for status
    200, content type [text/html] and the length of the page, and then the
    whole page; the board is left as it was. *)
Theorem index_page_served sock st uri rest :
  nul_free HTML_PAGE ->
  Z.of_nat (String.length HTML_PAGE) < 65536 ->
  uri = "/" \/ uri = "/index.html" ->
  process sock (request_text "GET" uri rest) st =
    Some (st,
          [Send sock
             ("HTTP/1.1 200 OK" +:+ CRLF +:+ "Content-Type: text/html" +:+ CRLF
                +:+ "Content-Length: "
                +:+ fmt_d (Z.of_nat (String.length HTML_PAGE)) +:+ CRLF
                +:+ "Connection: close" +:+ CRLF +:+ CRLF);
           Send sock HTML_PAGE]).
Proof.
  intros Hnul Hlen Huri.
  assert (request_line (request_text "GET" uri rest) = Some ("GET", uri))
    as Hline by (destruct Huri as [-> | ->]; reflexivity).
  rewrite (route_index HTML_PAGE sock _ st uri Hline Huri).
  rewrite send_http_response_complete; first done.
  - simpl. repeat split; discriminate.
  - simpl. repeat split; discriminate.
  - done.
  - simpl. lia.
  - done.
Qed.

(** X9. A request whose request line fits [method] and [uri] is handled,
    and the router answers it at most once: it calls [send] either not at
    all or exactly twice, both times on the socket it was given. It
    changes the board only on requests it answers with the success
    response, header and body. *)
Theorem router_answers_once sock request st :
  is_Some (request_line request) ->
  exists st' out,
    process sock request st = Some (st', out)
    /\ (out = [] \/ exists header body,
                      out = [Send sock header; Send sock body])
    /\ (st' <> st ->
        out = [Send sock success_header; Send sock success_json]).
Proof.
  intros Hline.
  destruct (process_defined HTML_PAGE sock request st Hline)
    as [[st' out] Hrun].
  exists st', out. split; [done |]. revert Hrun.
  unfold process_http_request.
  destruct (sscanf_s_s (c_str request) 16 128) as [[method uri]|]; [| done].
  repeat match goal with
         | |- context [if ?b then _ else _] => destruct b
         | |- context [match ?o with Some _ => _ | None => _ end] =>
             destruct o
         end;
    intros [= <- <-];
    (split;
     [ first [ left; reflexivity
             | right; unfold send_http_response, send;
               eexists; eexists; reflexivity ]
     | match goal with
       | |- ?x <> ?x -> _ => intros Hne; by destruct Hne
       | |- _ => intros _; exact (success_on_wire sock)
       end ]).
Qed.

(** X16. A [GET] whose request line fits [method] and [uri] is answered,
    whatever its path: [send] is called exactly twice on the socket, first
    with a header that starts with the status line for 200 OK or for 404
    Not Found; the board is left as it was. *)
Theorem get_never_changes_board sock request st uri :
  request_line request = Some ("GET", uri) ->
  exists header body,
    process sock request st = Some (st, [Send sock header; Send sock body])
    /\ ((exists tail, header = "HTTP/1.1 200 OK" +:+ CRLF +:+ tail)
        \/ (exists tail, header = "HTTP/1.1 404 Not Found" +:+ CRLF +:+ tail)).
Proof.
  unfold request_line, process_http_request. intros ->.
  change (strcmp "GET" "GET" =? 0) with true. cbv iota.
  assert (forall status content_type body,
            exists data,
              send_http_response sock status content_type body =
                [Send sock (http_header status content_type body);
                 Send sock data]) as Hsend.
  { intros status content_type body. unfold send_http_response.
    rewrite send_header.
    destruct (send_is_Send sock body (strlen body)) as [data ->].
    by exists data. }
  destruct (http_header_status_line "200 OK" "text/html" HTML_PAGE)
    as [t1 H1]; [simpl; repeat split; discriminate | simpl; lia |].
  destruct (http_header_status_line "200 OK" "application/json"
              (get_relays_json st 512))
    as [t2 H2]; [simpl; repeat split; discriminate | simpl; lia |].
  destruct (http_header_status_line "404 Not Found" "text/plain" "Not Found")
    as [t3 H3]; [simpl; repeat split; discriminate | simpl; lia |].
  destruct (_ || _).
  - destruct (Hsend "200 OK" "text/html" HTML_PAGE) as [data ->].
    eexists. eexists. split; [reflexivity |]. left. by exists t1.
  - destruct (_ =? 0).
    + destruct (Hsend "200 OK" "application/json" (get_relays_json st 512))
        as [data ->].
      eexists. eexists. split; [reflexivity |]. left. by exists t2.
    + destruct (Hsend "404 Not Found" "text/plain" "Not Found") as [data ->].
      eexists. eexists. split; [reflexivity |]. right. by exists t3.
Qed.

End RouterMore.

(** ** The JSON text of the store *)

Section Json.

Variable HTML_PAGE : string.
Implicit Types (st : board) (v w : Z).

#[local] Arguments fmt_d : simpl never.

Lemma fmt_d_bit v : v = OFF \/ v = ON -> String.length (fmt_d v) = 1%nat.
Proof. by intros [-> | ->]. Qed.

Lemma fmt_d_bit_peel v w r1 r2 :
  v = OFF \/ v = ON -> w = OFF \/ w = ON ->
  fmt_d v +:+ r1 = fmt_d w +:+ r2 -> v = w /\ r1 = r2.
Proof.
  intros [-> | ->] [-> | ->] H; vm_compute in H;
    first [ discriminate H | by injection H as -> ].
Qed.

Lemma relay_inv_entries st :
  relay_inv st ->
  exists v1 v2 v3 v4 v5 v6 v7 v8,
    g_relay_states st = [v1; v2; v3; v4; v5; v6; v7; v8]
    /\ Forall (fun v => v = OFF \/ v = ON) [v1; v2; v3; v4; v5; v6; v7; v8].
Proof.
  intros [Hlen Hall]. destruct (g_relay_states st) as [|v1 g]; [done |].
  do 7 (destruct g as [|? g]; [done |]). destruct g; [| done].
  by repeat eexists.
Qed.

Lemma relays_json_length st :
  relay_inv st -> String.length (get_relays_json st 512) = 177%nat.
Proof.
  intros Hinv. rewrite get_relays_json_spec by by apply relay_inv_well_formed.
  destruct (relay_inv_entries st Hinv)
    as (v1 & v2 & v3 & v4 & v5 & v6 & v7 & v8 & -> & Hall).
  repeat match goal with
         | H : Forall _ (_ :: _) |- _ =>
             apply Forall_cons in H as [?%fmt_d_bit H]
         end.
  unfold spec_relays_json. cbn [imap spec_join].
  cbv [spec_relay_member compose quoted].
  repeat match goal with
         | H : String.length (fmt_d ?v) = 1%nat |- _ =>
             generalize dependent (fmt_d v); intros
         end.
  rewrite !length_append. simpl. lia.
Qed.

(** X10. For a store of eight entries that are 0 or 1, the answer to
    [GET /api/relays] has a body of exactly 177 characters, and its header
    is the fixed text that announces 177 as content length. *)
Theorem relays_answer_has_fixed_size sock request st :
  relay_inv st ->
  request_line request = Some ("GET", "/api/relays") ->
  exists body,
    process_http_request HTML_PAGE sock request st =
      Some (st, [Send sock relays_header; Send sock body])
    /\ String.length body = 177%nat.
Proof.
  intros Hinv Hline. exists (get_relays_json st 512).
  rewrite (route_get_relays HTML_PAGE sock request st Hline).
  pose proof (relays_json_length st Hinv) as Hlen.
  split; [| done].
  pose proof (relay_inv_well_formed st Hinv) as Hwf.
  destruct (relays_json_text st Hwf) as [Hnul _].
  rewrite <- (get_relays_json_spec st Hwf) in Hnul.
  rewrite send_http_response_complete; first by rewrite Hlen.
  - simpl. repeat split; discriminate.
  - simpl. repeat split; discriminate.
  - done.
  - simpl. lia.
  - rewrite Hlen. lia.
Qed.

(** X11. The text [get_relays_json] writes tells the entries apart: two
    stores of eight entries that are 0 or 1 with the same text hold the
    same entries. *)
Theorem relays_json_determines_store st1 st2 :
  relay_inv st1 -> relay_inv st2 ->
  get_relays_json st1 512 = get_relays_json st2 512 ->
  g_relay_states st1 = g_relay_states st2.
Proof.
  intros Hinv1 Hinv2.
  rewrite !get_relays_json_spec by by apply relay_inv_well_formed.
  destruct (relay_inv_entries st1 Hinv1)
    as (a1 & a2 & a3 & a4 & a5 & a6 & a7 & a8 & -> & Ha).
  destruct (relay_inv_entries st2 Hinv2)
    as (b1 & b2 & b3 & b4 & b5 & b6 & b7 & b8 & -> & Hb).
  repeat match goal with
         | H : Forall _ (_ :: _) |- _ => apply Forall_cons in H as [? H]
         end.
  unfold spec_relays_json. cbn [imap spec_join].
  cbv [spec_relay_member compose quoted]. rewrite !append_assoc.
  intros Hjson. simpl in Hjson.
  repeat match type of Hjson with
         | String ?c _ = String ?c _ => injection Hjson as Hjson
         | fmt_d _ +:+ _ = fmt_d _ +:+ _ =>
             apply fmt_d_bit_peel in Hjson as [-> Hjson]; [| done | done]
         end.
  reflexivity.
Qed.

End Json.

(** ** The server loop *)

Section Server.

Variable HTML_PAGE : string.
Implicit Types (st : board) (sock : Z) (view : socket_view).

Abbreviation poll := (http_server_run HTML_PAGE).


(** A request shorter than the buffer reaches the router whole. *)
Lemma poll_established sock view st :
  sn_sr view = SOCK_ESTABLISHED ->
  (0 < String.length (rx view) < Z.to_nat MAX_HTTP_BUF)%nat ->
  poll sock view st =
    '(st', out) ← process_http_request HTML_PAGE sock (rx view) st;
    Some (st', Recv sock (Z.of_nat (String.length (rx view)))
                 :: (Io <$> out) ++ [Disconnect sock]).
Proof.
  unfold http_server_run, MAX_HTTP_BUF. intros -> Hlen.
  change (Z.to_nat 2048) with 2048%nat in Hlen.
  set (len := Z.of_nat (String.length (rx view))).
  assert (0 < len < 2048) as Hz by lia.
  destruct (0 <? len) eqn:E1; [| apply Z.ltb_ge in E1; lia].
  destruct (2048 <? len) eqn:E2; [apply Z.ltb_lt in E2; lia |].
  destruct (len <? 2048) eqn:E3; [| apply Z.ltb_ge in E3; lia].
  unfold len. by rewrite Nat2Z.id, substring_all.
Qed.

Lemma poll_preserves (P : board -> Prop) sock view st st' calls :
  (forall n state b, P b -> P (set_relay n state b)) ->
  P st -> poll sock view st = Some (st', calls) -> P st'.
Proof.
  intros Hset HP. unfold http_server_run.
  destruct (sn_sr view); try by intros [= <- _].
  destruct (0 <? _); [| by intros [= <- _]].
  destruct (_ <? MAX_HTTP_BUF); [| done].
  destruct (process_http_request _ _ _ _) as [[st1 out]|] eqn:E; [| done].
  simpl. intros [= <- _].
  by apply (process_preserves HTML_PAGE P _ _ _ _ _ Hset HP E).
Qed.

Lemma poll_sends_sock sock view st st' calls :
  poll sock view st = Some (st', calls) ->
  forall sk data, Io (Send sk data) ∈ calls -> sk = sock.
Proof.
  unfold http_server_run.
  destruct (sn_sr view);
    try (intros [= <- <-] sk data Hin;
         repeat (apply elem_of_cons in Hin as [Heq | Hin]; [done |]);
         by apply elem_of_nil in Hin).
  destruct (0 <? _).
  2:{ intros [= <- <-] sk data Hin. by apply elem_of_nil in Hin. }
  destruct (_ <? MAX_HTTP_BUF); [| done].
  destruct (process_http_request _ _ _ _) as [[st1 out]|] eqn:E; [| done].
  simpl. intros [= <- <-] sk data Hin.
  apply elem_of_cons in Hin as [Heq | Hin]; [done |].
  apply elem_of_app in Hin as [Hin | Hin].
  - apply list_elem_of_fmap in Hin as (e & [= <-] & Hin).
    by apply (process_sends_sock HTML_PAGE _ _ _ _ _ E sk data).
  - apply list_elem_of_singleton in Hin. done.
Qed.

(** With an established connection, a poll has no outcome just when 2048
    bytes or more are waiting or the request line has none. *)
Lemma poll_undefined_iff sock view st :
  sn_sr view = SOCK_ESTABLISHED ->
  http_server_run HTML_PAGE sock view st = None <->
  (Z.to_nat MAX_HTTP_BUF <= String.length (rx view))%nat
  \/ request_line (rx view) = None.
Proof.
  intros Hsr.
  destruct (rx view) as [|c r] eqn:Hrx.
  { unfold http_server_run. rewrite Hsr, Hrx. simpl. split; [done |].
    unfold MAX_HTTP_BUF. intros [H | H]; [simpl in H; lia | done]. }
  destruct (le_lt_dec (Z.to_nat MAX_HTTP_BUF) (String.length (String c r)))
    as [Hbig | Hsmall].
  - split; [by left | intros _].
    unfold http_server_run, MAX_HTTP_BUF in *. rewrite Hsr, Hrx.
    change (Z.to_nat 2048) with 2048%nat in Hbig.
    set (len := Z.of_nat (String.length (String c r))).
    assert (2048 <= len) as Hz by lia.
    destruct (0 <? len) eqn:E1; [| apply Z.ltb_ge in E1; lia].
    destruct (2048 <? len) eqn:E2; [done |].
    destruct (len <? 2048) eqn:E3; [apply Z.ltb_lt in E3; lia | done].
  - rewrite poll_established by (rewrite ?Hrx; simpl in *; lia || done).
    rewrite Hrx. split.
    + intros Hnone. right.
      destruct (request_line (String c r)) as [p|] eqn:Hline; [| done].
      destruct (process_defined HTML_PAGE sock (String c r) st) as [[b o] Hp];
        [by eexists |]. by rewrite Hp in Hnone.
    + intros [Hbig | Hline]; [lia |].
      by rewrite (process_undefined HTML_PAGE sock _ st Hline).
Qed.


Lemma server_loop_preserves (P : board -> Prop) sock views st st' calls :
  (forall n state b, P b -> P (set_relay n state b)) ->
  P st -> server_loop HTML_PAGE sock views st = Some (st', calls) -> P st'.
Proof.
  intros Hset. revert st calls.
  induction views as [|v rest IH]; intros st calls HP; simpl.
  - by intros [= <- _].
  - destruct (poll sock v st) as [[st1 c1]|] eqn:E1; simpl; [| done].
    destruct (server_loop HTML_PAGE sock rest st1) as [[st2 c2]|] eqn:E2;
      simpl; [| done].
    intros [= <- _]. apply (IH st1 c2); [| done].
    by apply (poll_preserves P sock v st st1 c1).
Qed.

Lemma server_loop_sends_sock sock views st st' calls :
  server_loop HTML_PAGE sock views st = Some (st', calls) ->
  forall sk data, Io (Send sk data) ∈ calls -> sk = sock.
Proof.
  revert st calls. induction views as [|v rest IH]; intros st calls; simpl.
  - intros [= <- <-] sk data Hin. by apply elem_of_nil in Hin.
  - destruct (poll sock v st) as [[st1 c1]|] eqn:E1; simpl; [| done].
    destruct (server_loop HTML_PAGE sock rest st1) as [[st2 c2]|] eqn:E2;
      simpl; [| done].
    intros [= <- <-] sk data Hin. apply elem_of_app in Hin as [Hin | Hin].
    + by apply (poll_sends_sock sock v st st1 c1 E1 sk data).
    + by apply (IH st1 c2 E2 sk data).
Qed.

Lemma server_loop_defined sock views st :
  Forall (fun v => sn_sr v = SOCK_ESTABLISHED ->
                   (String.length (rx v) < Z.to_nat MAX_HTTP_BUF)%nat
                   /\ is_Some (request_line (rx v))) views ->
  is_Some (server_loop HTML_PAGE sock views st).
Proof.
  revert st. induction views as [|v rest IH]; intros st Hall; simpl.
  - by eexists.
  - apply Forall_cons in Hall as [Hv Hrest].
    assert (is_Some (poll sock v st)) as [[st1 c1] ->].
    { destruct (poll sock v st) as [p|] eqn:E; [by eexists |].
      destruct (sn_sr v) eqn:Hsr;
        try (unfold http_server_run in E; rewrite Hsr in E; done).
      apply poll_undefined_iff in E as [Hbig | Hline]; [| | done].
      - destruct (Hv eq_refl) as [Hlen _]. lia.
      - destruct (Hv eq_refl) as [_ [p Hp]]. by rewrite Hp in Hline. }
    simpl. destruct (IH st1 Hrest) as [[st2 c2] ->]. simpl. by eexists.
Qed.

(** X15. [main], after any number of polls: it has a defined outcome
    whenever every established poll finds fewer than 2048 bytes with a
    request line that fits; then the store has eight entries that are 0 or
    1, every relay pin is driven as its entry says, the first library call
    opened socket 0 on port 80, and every [send] went to socket 0. *)
Theorem main_keeps_board (views : list socket_view) :
  (Forall (fun v => sn_sr v = SOCK_ESTABLISHED ->
                    (String.length (rx v) < Z.to_nat MAX_HTTP_BUF)%nat
                    /\ is_Some (request_line (rx v))) views ->
   is_Some (main HTML_PAGE views))
  /\ forall st calls,
       main HTML_PAGE views = Some (st, calls) ->
       relay_inv st /\ pins_follow st
       /\ head calls = Some (Socket 0 80)
       /\ forall sk data, Io (Send sk data) ∈ calls -> sk = 0.
Proof.
  unfold main. split.
  - intros Hall.
    destruct (server_loop_defined HTTP_SOCKET views (relay_init power_on) Hall)
      as [[st calls] ->].
    by eexists.
  - intros st calls.
    destruct (server_loop HTML_PAGE HTTP_SOCKET views (relay_init power_on))
      as [[st1 c1]|] eqn:E; simpl; [| done].
    intros [= <- <-].
    assert (relay_inv (relay_init power_on)) as Hinv0.
    { split; [done |]. rewrite relay_init_states by done.
      simpl. repeat (apply Forall_cons_2; [by left |]). apply Forall_nil_2. }
    assert (wired (relay_init power_on)) as Hwired0.
    { split; [done | by apply relay_init_pins_follow]. }
    split; [| split; [| split; [done |]]].
    + apply (server_loop_preserves relay_inv _ _ _ _ _
               (fun n state b => set_relay_inv n state b) Hinv0 E).
    + apply (server_loop_preserves wired _ _ _ _ _
               (fun n state b => set_relay_wired n state b) Hwired0 E).
    + intros sk data Hin. apply elem_of_cons in Hin as [Heq | Hin]; [done |].
      by apply (server_loop_sends_sock _ _ _ _ _ E sk data).
Qed.

End Server.

(** ** The response on the wire *)

Section Wire.

Implicit Types (status content_type body : string) (sock : Z).

(** X17. [send_http_response] calls [send] twice on its socket. The header
    it sends never has more than 255 characters. For a status, a content
    type and a body without terminator, the first two of together at most
    150 characters and the body shorter than 65536, the header is the
    complete header with the exact length of the body, and the whole body
    is sent after it. A body of 65536 characters is announced with that
    length, but [send] is given length 0 and no byte of it. *)
Theorem header_is_complete sock status content_type body :
  (exists header data,
     send_http_response sock status content_type body =
       [Send sock header; Send sock data]
     /\ (String.length header <= 255)%nat)
  /\ (nul_free status -> nul_free content_type -> nul_free body ->
      (String.length status + String.length content_type <= 150)%nat ->
      Z.of_nat (String.length body) < 65536 ->
      send_http_response sock status content_type body =
        [Send sock
           ("HTTP/1.1 " +:+ status +:+ CRLF
              +:+ "Content-Type: " +:+ content_type +:+ CRLF
              +:+ "Content-Length: "
              +:+ fmt_d (Z.of_nat (String.length body)) +:+ CRLF
              +:+ "Connection: close" +:+ CRLF +:+ CRLF);
         Send sock body])
  /\ (nul_free body -> Z.of_nat (String.length body) = 65536 ->
      send_http_response sock "200 OK" "text/html" body =
        [Send sock
           ("HTTP/1.1 200 OK" +:+ CRLF +:+ "Content-Type: text/html" +:+ CRLF
              +:+ "Content-Length: 65536" +:+ CRLF
              +:+ "Connection: close" +:+ CRLF +:+ CRLF);
         Send sock EmptyString]).
Proof.
  split; [| split].
  - unfold send_http_response. rewrite send_header.
    destruct (send_is_Send sock body (strlen body)) as [data ->].
    exists (http_header status content_type body), data.
    split; [done | apply http_header_length].
  - intros Hs Hc Hb Hshort Hbody.
    by rewrite send_http_response_complete.
  - intros Hb Hlen. unfold send_http_response. rewrite send_header.
    unfold send at 1, http_header, strlen, uint16.
    rewrite (c_str_id body Hb), Hlen.
    assert (String.substring 0 (Z.to_nat (65536 `mod` 65536)) body
            = EmptyString) as -> by (clear; by destruct body).
    reflexivity.
Qed.

End Wire.

(** ** The further properties at sample inputs *)

Lemma relay_init_resets_witness :
  g_relay_states (relay_init all_on) = replicate (Z.to_nat RELAY_COUNT) OFF
  /\ (forall pin, pin ∈ relay_pins ->
                  gpio_out (relay_init all_on) !! pin = Some false)
  /\ (forall pin, pin ∉ relay_pins ->
                  gpio_out (relay_init all_on) !! pin = gpio_out all_on !! pin)
  /\ pins_follow (relay_init all_on).
Proof. apply (relay_init_resets all_on). reflexivity. Defined.

Lemma router_keeps_pins_witness :
  exists st' out,
    process_http_request sample_page 0 (relay_request 3 body_on)
      (relay_init power_on) = Some (st', out)
    /\ length (g_relay_states st') = Z.to_nat RELAY_COUNT
    /\ pins_follow st'.
Proof.
  apply (router_keeps_pins sample_page 0 (relay_request 3 body_on)
           (relay_init power_on)).
  - reflexivity.
  - apply relay_init_pins_follow. reflexivity.
  - eexists. reflexivity.
Defined.

Lemma set_relay_compose_witness :
  set_relay 1 1 (set_relay 2 0 all_on) = set_relay 2 0 (set_relay 1 1 all_on).
Proof. apply (set_relay_compose 1 2 1 0 all_on). lia. Defined.

Lemma request_line_round_trip_witness :
  request_line (request_text "DELETE" "/api/relays" "HTTP/1.1")
  = Some ("DELETE", "/api/relays").
Proof.
  apply (request_line_round_trip "DELETE" "/api/relays" "HTTP/1.1").
  - split; [discriminate |]. split; simpl; repeat split; discriminate.
  - split; [discriminate |]. split; simpl; repeat split; discriminate.
Defined.

Lemma request_line_tokens_witness :
  no_space "POST" /\ no_space ("/api/relay/" +:+ "3")
  /\ nul_free "POST" /\ nul_free ("/api/relay/" +:+ "3")
  /\ ("POST" = EmptyString -> "/api/relay/" +:+ "3" = EmptyString).
Proof.
  apply (request_line_tokens (relay_request 3 body_on)). reflexivity.
Defined.

Lemma other_method_is_silent_witness :
  process_http_request sample_page 0 (plain_request "get" "/") all_on
  = Some (all_on, []).
Proof.
  apply (other_method_is_silent sample_page 0 (plain_request "get" "/")
           all_on "get" "/").
  - reflexivity.
  - discriminate.
  - discriminate.
Defined.

Lemma unrouted_path_gets_404_witness :
  process_http_request sample_page 0 (plain_request "GET" "/api/relays/")
    all_on
  = Some (all_on, [Send 0 not_found_header; Send 0 "Not Found"]).
Proof.
  apply (unrouted_path_gets_404 sample_page 0
           (plain_request "GET" "/api/relays/") all_on "GET" "/api/relays/").
  - reflexivity.
  - left. repeat split; discriminate.
Defined.

Lemma index_page_served_witness :
  process_http_request sample_page 0
    (request_text "GET" "/index.html" "HTTP/1.1") power_on
  = Some (power_on,
          [Send 0
             ("HTTP/1.1 200 OK" +:+ CRLF +:+ "Content-Type: text/html" +:+ CRLF
                +:+ "Content-Length: 32" +:+ CRLF
                +:+ "Connection: close" +:+ CRLF +:+ CRLF);
           Send 0 sample_page]).
Proof.
  apply (index_page_served sample_page 0 power_on "/index.html" "HTTP/1.1").
  - simpl. repeat split; discriminate.
  - simpl. lia.
  - right. reflexivity.
Defined.

Lemma router_answers_once_witness :
  exists st' out,
    process_http_request sample_page 0 (relay_request 3 body_on) power_on
      = Some (st', out)
    /\ (out = [] \/ exists header body,
                      out = [Send 0 header; Send 0 body])
    /\ (st' <> power_on ->
        out = [Send 0 success_header; Send 0 success_json]).
Proof.
  apply (router_answers_once sample_page 0 (relay_request 3 body_on)
           power_on).
  eexists. reflexivity.
Defined.

Lemma get_never_changes_board_witness :
  exists header body,
    process_http_request sample_page 0 (plain_request "GET" "/nothing")
      all_on
    = Some (all_on, [Send 0 header; Send 0 body])
    /\ ((exists tail, header = "HTTP/1.1 200 OK" +:+ CRLF +:+ tail)
        \/ (exists tail,
              header = "HTTP/1.1 404 Not Found" +:+ CRLF +:+ tail)).
Proof.
  apply (get_never_changes_board sample_page 0
           (plain_request "GET" "/nothing") all_on "/nothing").
  reflexivity.
Defined.

Lemma all_on_inv : relay_inv all_on.
Proof.
  split; [reflexivity |]. simpl.
  repeat (apply Forall_cons_2; [right; reflexivity |]). apply Forall_nil_2.
Defined.

Lemma relays_answer_has_fixed_size_witness :
  exists body,
    process_http_request sample_page 0 (plain_request "GET" "/api/relays")
      all_on
    = Some (all_on, [Send 0 relays_header; Send 0 body])
    /\ String.length body = 177%nat.
Proof.
  apply (relays_answer_has_fixed_size sample_page 0
           (plain_request "GET" "/api/relays") all_on).
  - exact all_on_inv.
  - reflexivity.
Defined.

Lemma relays_json_determines_store_witness :
  g_relay_states all_on
  = g_relay_states (Board (replicate 8 ON) {[RELAY_CH1 := true]}).
Proof.
  apply (relays_json_determines_store all_on
           (Board (replicate 8 ON) {[RELAY_CH1 := true]})).
  - exact all_on_inv.
  - split; [reflexivity |]. simpl.
    repeat (apply Forall_cons_2; [right; reflexivity |]). apply Forall_nil_2.
  - reflexivity.
Defined.


Lemma main_keeps_board_witness :
  exists st calls,
    main sample_page [view_closed; view_quiet; view_relay_3]
      = Some (st, calls)
    /\ relay_inv st /\ pins_follow st
    /\ head calls = Some (Socket 0 80)
    /\ forall sk data, Io (Send sk data) ∈ calls -> sk = 0.
Proof.
  eexists. eexists.
  assert (forall (A B : Prop), A -> (A -> B) -> A /\ B) as Hconj by tauto.
  apply Hconj; [vm_compute; reflexivity |]. intros Hrun.
  exact (proj2 (main_keeps_board sample_page
                  [view_closed; view_quiet; view_relay_3]) _ _ Hrun).
Defined.

Lemma header_is_complete_witness :
  send_http_response 0 "200 OK" "text/html" sample_page
  = [Send 0
       ("HTTP/1.1 200 OK" +:+ CRLF +:+ "Content-Type: text/html" +:+ CRLF
          +:+ "Content-Length: 32" +:+ CRLF
          +:+ "Connection: close" +:+ CRLF +:+ CRLF);
     Send 0 sample_page].
Proof.
  apply (header_is_complete 0 "200 OK" "text/html" sample_page).
  - simpl. repeat split; discriminate.
  - simpl. repeat split; discriminate.
  - simpl. repeat split; discriminate.
  - simpl. lia.
  - simpl. lia.
Defined.
